(** * ADQL query construction in the ESO notebook on reduced data

    The notebook builds ADQL statements with Python's [%] interpolation and
    hands them to [tapobs.search].  This development embeds the
    query-building cells as functions on strings, Python's [%f] conversion as
    it acts on the exact value of a binary64 number, a small reader of ADQL
    text that recovers operands, literals and clauses from a built statement,
    and the [tapobs.search] cells as programs over an abstract remote
    service. *)

From Stdlib Require Import ZArith NArith QArith Bool List Ascii String Lia.
From Stdlib Require Import Floats.
From Stdlib Require Import Qabs.
Import ListNotations.

#[local] Set Warnings "-inexact-float".
#[local] Open Scope string_scope.

(** ** Python's [%f] conversion of a binary64 value *)

Module Printf.

(** The line feed a triple-quoted Python string holds at each line break. *)
Definition LF : string := String (ascii_of_nat 10) EmptyString.

Definition digit_char (d : Z) : ascii := ascii_of_nat (48 + Z.to_nat d).

(** Decimal digits of a non-negative integer, most significant first; [fuel]
    bounds the number of digits. *)
Fixpoint digits_aux (fuel : nat) (n : Z) (acc : string) : string :=
  match fuel with
  | O => acc
  | S fuel' =>
      let acc' := String (digit_char (n mod 10)) acc in
      if (n <? 10)%Z then acc' else digits_aux fuel' (n / 10)%Z acc'
  end.

(** [%d] of a non-negative integer. *)
Definition decimal (n : Z) : string :=
  digits_aux (S (Z.to_nat (Z.log2 n))) n EmptyString.

(** The six digits after the point, zero padded. *)
Definition frac6 (r : Z) : string :=
  String (digit_char (r / 100000 mod 10))
 (String (digit_char (r / 10000 mod 10))
 (String (digit_char (r / 1000 mod 10))
 (String (digit_char (r / 100 mod 10))
 (String (digit_char (r / 10 mod 10))
 (String (digit_char (r mod 10)) EmptyString))))).

(** [m * 2^e * 10^6] rounded to the nearest integer, ties to even: the
    correctly rounded conversion CPython's [%f] performs on the exact binary
    value. *)
Definition scaled_round (m : positive) (e : Z) : Z :=
  if (0 <=? e)%Z then (Z.pos m * 2 ^ e * 1000000)%Z
  else
    let num := (Z.pos m * 1000000)%Z in
    let den := (2 ^ (- e))%Z in
    let q := (num / den)%Z in
    let r := (num mod den)%Z in
    if (den <? 2 * r)%Z then (q + 1)%Z
    else if (2 * r =? den)%Z then (if Z.even q then q else q + 1)%Z
    else q.

Definition sign_text (s : bool) : string := if s then "-" else EmptyString.

Definition fixed6 (q : Z) : string :=
  decimal (q / 1000000) ++ "." ++ frac6 (q mod 1000000).

(** ['%f' % x] for a Python float [x]. *)
Definition format_f (x : float) : string :=
  match Prim2SF x with
  | S754_zero s => sign_text s ++ fixed6 0
  | S754_infinity s => sign_text s ++ "inf"
  | S754_nan => "nan"
  | S754_finite s m e => sign_text s ++ fixed6 (scaled_round m e)
  end.

(** Ten to a signed power, as a reduced fraction. *)
Definition scale10 (m e : Z) : Q :=
  Qred (if (0 <=? e)%Z then inject_Z (m * 10 ^ e)
        else Qmake m (Z.to_pos (10 ^ (- e)))).

(** The exact rational value of a finite binary64 number, reduced. *)
Definition float_value (x : float) : option Q :=
  match Prim2SF x with
  | S754_zero _ => Some (Qred 0)
  | S754_finite s m e =>
      let mag := if (0 <=? e)%Z then inject_Z (Z.pos m * 2 ^ e)
                 else Qmake (Z.pos m) (Z.to_pos (2 ^ (- e))) in
      Some (Qred (if s then Qopp mag else mag))
  | _ => None
  end.

Fixpoint float_values (xs : list float) : option (list Q) :=
  match xs with
  | [] => Some []
  | x :: xs' =>
      match float_value x, float_values xs' with
      | Some v, Some vs => Some (v :: vs)
      | _, _ => None
      end
  end.

End Printf.

(** ** Reading ADQL text back *)

Module Adql.

Definition apostrophe : ascii := ascii_of_nat 39.
Definition is_apostrophe (c : ascii) : bool := Ascii.eqb c apostrophe.
Definition is_blank (c : ascii) : bool :=
  Ascii.eqb c " " || Ascii.eqb c (ascii_of_nat 10).

Definition in_range (lo hi : nat) (c : ascii) : bool :=
  (lo <=? nat_of_ascii c)%nat && (nat_of_ascii c <=? hi)%nat.
Definition is_digit (c : ascii) : bool := in_range 48 57 c.
Definition is_word_char (c : ascii) : bool :=
  in_range 48 57 c || in_range 65 90 c || in_range 97 122 c || Ascii.eqb c "_".

(** ADQL keywords and function names are case insensitive. *)
Definition upper (c : ascii) : ascii :=
  if in_range 97 122 c then ascii_of_nat (nat_of_ascii c - 32) else c.

Fixpoint upper_string (s : string) : string :=
  match s with
  | EmptyString => EmptyString
  | String c s' => String (upper c) (upper_string s')
  end.

Definition snoc (s : string) (c : ascii) : string := s ++ String c EmptyString.

Fixpoint all_chars (p : ascii -> bool) (s : string) : bool :=
  match s with
  | EmptyString => true
  | String c s' => p c && all_chars p s'
  end.

(** Text that cannot end the string literal it is placed in. *)
Definition quote_free (s : string) : bool :=
  all_chars (fun c => negb (is_apostrophe c)) s.

(** The characters the reader of operands treats as structure. *)
Definition inner_char (c : ascii) : bool :=
  negb (is_apostrophe c || Ascii.eqb c "(" || Ascii.eqb c ")").

Definition plain_char (c : ascii) : bool :=
  negb (is_apostrophe c || Ascii.eqb c "(" || Ascii.eqb c ")"
        || Ascii.eqb c "," || Ascii.eqb c " ").

(** What a statement needs of a converted number: it has no blank, and it
    starts with a digit, a minus sign, or the first letter of [inf] or
    [nan]. *)
Definition number_head (c : ascii) : bool :=
  is_digit c || Ascii.eqb c "-" || Ascii.eqb c "i" || Ascii.eqb c "n".

Definition number_char (c : ascii) : bool :=
  is_digit c || Ascii.eqb c "-" || Ascii.eqb c "."
  || Ascii.eqb c "i" || Ascii.eqb c "n" || Ascii.eqb c "f" || Ascii.eqb c "a".

(** *** Operands of a function call *)

Fixpoint strip_prefix_ci (p s : string) : option string :=
  match p with
  | EmptyString => Some s
  | String a p' =>
      match s with
      | EmptyString => None
      | String b s' =>
          if Ascii.eqb (upper a) (upper b) then strip_prefix_ci p' s' else None
      end
  end.

(** The text after the first occurrence of [p]. *)
Fixpoint find_after (p s : string) : option string :=
  match strip_prefix_ci p s with
  | Some r => Some r
  | None =>
      match s with
      | EmptyString => None
      | String _ s' => find_after p s'
      end
  end.

(** The reader is inside the parentheses of a call: [depth] counts the
    nested parentheses still open, [in_lit] says whether a string literal is
    open, [cur] is the operand being read and [done] the operands read so
    far, last first. *)
Inductive scan_state : Type :=
| Scan (depth : nat) (in_lit : bool) (cur : string) (done : list string)
| Closed (args : list string).

Definition scan_step (st : scan_state) (c : ascii) : scan_state :=
  match st with
  | Closed a => Closed a
  | Scan d true cur done => Scan d (negb (is_apostrophe c)) (snoc cur c) done
  | Scan d false cur done =>
      if is_apostrophe c then Scan d true (snoc cur c) done
      else if Ascii.eqb c "(" then Scan (S d) false (snoc cur c) done
      else if Ascii.eqb c ")" then
        match d with
        | O => Closed (rev (cur :: done))
        | S d' => Scan d' false (snoc cur c) done
        end
      else if Ascii.eqb c "," then
        match d with
        | O => Scan O false EmptyString (cur :: done)
        | S _ => Scan d false (snoc cur c) done
        end
      else if Ascii.eqb c " " then
        match d, cur with
        | O, EmptyString => st
        | _, _ => Scan d false (snoc cur c) done
        end
      else Scan d false (snoc cur c) done
  end.

Fixpoint scan (s : string) (st : scan_state) : scan_state :=
  match s with
  | EmptyString => st
  | String c s' => scan s' (scan_step st c)
  end.

Definition scan_start : scan_state := Scan O false EmptyString [].

(** The operands of the first call of [name] in [q], in order, split at the
    commas that lie outside nested parentheses and string literals; blanks in
    front of an operand are dropped. *)
Definition call_args (name q : string) : option (list string) :=
  match find_after (name ++ "(") q with
  | Some rest =>
      match scan rest scan_start with
      | Closed a => Some a
      | Scan _ _ _ _ => None
      end
  | None => None
  end.

(** The operands of every call of [name] in [q], one entry for each place
    where [name(] stands, in the order of the text; a call that is never
    closed gives no operands. *)
Definition read_operands (rest : string) : option (list string) :=
  match scan rest scan_start with
  | Closed a => Some a
  | Scan _ _ _ _ => None
  end.

Fixpoint calls_from (p s : string) : list (option (list string)) :=
  match s with
  | EmptyString => []
  | String _ s' =>
      match strip_prefix_ci p s with
      | Some rest => read_operands rest :: calls_from p s'
      | None => calls_from p s'
      end
  end.

Definition all_calls (name q : string) : list (option (list string)) :=
  calls_from (name ++ "(") q.

(** An operand that is a geometry: a call of point, circle or polygon. *)
Definition geometry (g : string) : bool :=
  match strip_prefix_ci "point(" g, strip_prefix_ci "circle(" g,
        strip_prefix_ci "polygon(" g with
  | None, None, None => false
  | _, _, _ => true
  end.

(** *** Counting WHERE clauses *)

(** Words outside string literals are compared with the keyword; [word] is
    the word being read, upper-cased. *)
Inductive lex_state : Type :=
| Lex (in_lit : bool) (word : string) (count : nat).

Definition flush (word : string) (count : nat) : nat :=
  if String.eqb word "WHERE" then S count else count.

Definition lex_step (st : lex_state) (c : ascii) : lex_state :=
  match st with
  | Lex true w n => Lex (negb (is_apostrophe c)) w n
  | Lex false w n =>
      if is_apostrophe c then Lex true EmptyString (flush w n)
      else if is_word_char c then Lex false (snoc w (upper c)) n
      else Lex false EmptyString (flush w n)
  end.

Fixpoint lex (s : string) (st : lex_state) : lex_state :=
  match s with
  | EmptyString => st
  | String c s' => lex s' (lex_step st c)
  end.

(** The number of WHERE keywords of a statement: those inside a string
    literal are text, not clauses. *)
Definition where_clauses (q : string) : nat :=
  match lex q (Lex false EmptyString 0) with
  | Lex _ w n => flush w n
  end.

(** *** The statement [SELECT * FROM ivoa.ObsCore WHERE col = 'literal'] *)

Fixpoint take_word (s : string) : string * string :=
  match s with
  | EmptyString => (EmptyString, EmptyString)
  | String c s' =>
      if is_word_char c then
        let (w, r) := take_word s' in (String c w, r)
      else (EmptyString, s)
  end.

(** The text up to the first apostrophe, and the text after it. *)
Fixpoint take_literal (s : string) : option (string * string) :=
  match s with
  | EmptyString => None
  | String c s' =>
      if is_apostrophe c then Some (EmptyString, s')
      else
        match take_literal s' with
        | Some (l, r) => Some (String c l, r)
        | None => None
        end
  end.

Definition select_all_where : string :=
  "SELECT *" ++ Printf.LF ++ "FROM ivoa.ObsCore" ++ Printf.LF ++ "WHERE ".

(** The column and the literal of a statement that selects every column of
    ivoa.ObsCore under one equality, and nothing when the statement has
    another form. *)
Definition parse_equality (q : string) : option (string * string) :=
  match strip_prefix_ci select_all_where q with
  | Some r =>
      let (col, r1) := take_word r in
      match strip_prefix_ci " = '" r1 with
      | Some r2 =>
          match take_literal r2 with
          | Some (lit, EmptyString) => Some (col, lit)
          | _ => None
          end
      | None => None
      end
  | None => None
  end.

(** A row of ivoa.ObsCore: its columns by name. *)
Definition row : Type := list (string * string).

Fixpoint column (name : string) (r : row) : option string :=
  match r with
  | [] => None
  | (k, v) :: r' => if String.eqb k name then Some v else column name r'
  end.

Definition matches (col lit : string) (r : row) : bool :=
  match column col r with
  | Some v => String.eqb v lit
  | None => false
  end.

(** What the service answers to an equality statement over a table. *)
Definition select (q : string) (t : list row) : option (list row) :=
  match parse_equality q with
  | Some (col, lit) => Some (filter (matches col lit) t)
  | None => None
  end.

(** *** Numeric literals *)

Definition digit_val (c : ascii) : Z := Z.of_nat (nat_of_ascii c - 48).

Fixpoint read_digits (s : string) (acc : Z) (n : nat) : Z * nat * string :=
  match s with
  | EmptyString => (acc, n, s)
  | String c s' =>
      if is_digit c then read_digits s' (acc * 10 + digit_val c)%Z (S n)
      else (acc, n, s)
  end.

Definition read_sign (s : string) : bool * string :=
  match s with
  | String c s' =>
      if Ascii.eqb c "-" then (true, s')
      else if Ascii.eqb c "+" then (false, s')
      else (false, s)
  | EmptyString => (false, s)
  end.

Definition read_exponent (s : string) : option Z :=
  match s with
  | EmptyString => Some 0%Z
  | String c s' =>
      if Ascii.eqb (upper c) "E" then
        let (neg, s1) := read_sign s' in
        match read_digits s1 0%Z 0 with
        | (_, O, _) => None
        | (x, S _, EmptyString) => Some (if neg then (- x)%Z else x)
        | (_, S _, String _ _) => None
        end
      else None
  end.

(** The value of a numeric literal: sign, digits, an optional fraction and
    an optional exponent; nothing for any other text. *)
Definition parse_decimal (s : string) : option Q :=
  let (neg, s1) := read_sign s in
  let '(ip, ni, s2) := read_digits s1 0%Z 0 in
  let '(m, nf, s3) :=
    match s2 with
    | String c s2' =>
        if Ascii.eqb c "." then read_digits s2' ip 0 else (ip, O, s2)
    | EmptyString => (ip, O, s2)
    end in
  match (ni + nf)%nat, read_exponent s3 with
  | S _, Some x =>
      Some (Printf.scale10 (if neg then (- m)%Z else m) (x - Z.of_nat nf))
  | _, _ => None
  end.

Fixpoint parse_all (l : list string) : option (list Q) :=
  match l with
  | [] => Some []
  | s :: l' =>
      match parse_decimal s, parse_all l' with
      | Some v, Some vs => Some (v :: vs)
      | _, _ => None
      end
  end.

(** The numbers of a cone search read back: the operands of its circle
    after the frame, each read as a numeric literal.  The notebook never
    reads a statement back; this states what a reader of it finds. *)
Definition cone_literals (q : string) : option (list Q) :=
  match call_args "circle" q with
  | Some (_ :: numbers) => parse_all numbers
  | _ => None
  end.

(** A statement on one line: every line feed replaced by a blank. *)
Fixpoint unfold_lines (s : string) : string :=
  match s with
  | EmptyString => EmptyString
  | String c s' =>
      String (if Ascii.eqb c (ascii_of_nat 10) then " "%char else c) (unfold_lines s')
  end.

(** *** Words of a statement and the uses of the spectral-bound columns *)

Definition flush_token (cur : string) (l : list string) : list string :=
  match cur with
  | EmptyString => l
  | String _ _ => cur :: l
  end.

Fixpoint tokens_from (s cur : string) : list string :=
  match s with
  | EmptyString => flush_token cur []
  | String c s' =>
      if is_blank c then flush_token cur (tokens_from s' EmptyString)
      else tokens_from s' (snoc cur c)
  end.

Definition tokens (q : string) : list string := tokens_from q EmptyString.

Inductive clause : Type := NoClause | InSelect | InFrom | InWhere.

Definition clause_eqb (a b : clause) : bool :=
  match a, b with
  | NoClause, NoClause | InSelect, InSelect
  | InFrom, InFrom | InWhere, InWhere => true
  | _, _ => false
  end.

Definition strip_paren (t : string) : string :=
  match t with
  | String c t' => if Ascii.eqb c "(" then t' else t
  | EmptyString => t
  end.

Definition keyword_clause (t : string) : option clause :=
  let u := upper_string (strip_paren t) in
  if String.eqb u "SELECT" then Some InSelect
  else if String.eqb u "FROM" then Some InFrom
  else if String.eqb u "WHERE" then Some InWhere
  else None.

(** A token that starts with the name of a spectral-bound column: the
    column and what follows it in the token. *)
Definition em_column (t : string) : option (string * string) :=
  match strip_prefix_ci "em_min" t with
  | Some r => Some ("em_min", r)
  | None =>
      match strip_prefix_ci "em_max" t with
      | Some r => Some ("em_max", r)
      | None => None
      end
  end.

Definition strip_comma (t : string) : string :=
  fst (take_word t).

(** How a statement uses a spectral-bound column: compared with a literal,
    multiplied by a factor, or otherwise. *)
Inductive em_use : Type :=
| Constraint (cl : clause) (col op lit : string)
| Rescaled (cl : clause) (col factor : string)
| OtherUse (cl : clause) (token : string).

Fixpoint em_walk (ts : list string) (cl : clause) : list em_use :=
  match ts with
  | [] => []
  | t :: ts' =>
      match keyword_clause t with
      | Some cl' => em_walk ts' cl'
      | None =>
          match em_column t with
          | None => em_walk ts' cl
          | Some (col, EmptyString) =>
              match ts' with
              | op :: lit :: _ => Constraint cl col op lit :: em_walk ts' cl
              | _ => OtherUse cl t :: em_walk ts' cl
              end
          | Some (col, String c f) =>
              if Ascii.eqb c "*" then Rescaled cl col (strip_comma f) :: em_walk ts' cl
              else OtherUse cl t :: em_walk ts' cl
          end
      end
  end.

Definition em_uses (q : string) : list em_use := em_walk (tokens q) NoClause.

End Adql.

(** ** The query-building cells *)

Module Notebook.
Import Printf.

(** Cell 5: the statement on [dp_id], its three clauses on three lines, the
    identifier put in by [%s]. *)
Definition byIdentifier (dp_id : string) : string :=
  "SELECT *" ++ LF ++
  "FROM ivoa.ObsCore" ++ LF ++
  "WHERE dp_id = '" ++ dp_id ++ "'".

(** Cell 5, the alternative kept in its comment:
    [ivorn = 'ivo://eso.org/ID?' + dp_id] and the same statement on
    [obs_publisher_did]. *)
Definition ivorn_of (dp_id : string) : string := "ivo://eso.org/ID?" ++ dp_id.

Definition byPublisherDid (dp_id : string) : string :=
  "SELECT *" ++ LF ++
  "FROM ivoa.ObsCore" ++ LF ++
  "WHERE obs_publisher_did = '" ++ ivorn_of dp_id ++ "'".

(** Cell 12. *)
Definition byOriginalFilename (origfile : string) : string :=
  "SELECT *" ++ LF ++
  "FROM ivoa.ObsCore" ++ LF ++
  "WHERE obs_creator_did = '" ++ ("ivo://eso.org/origfile?" ++ origfile) ++ "'".

(** Cell 17: the cone search, three [%f] conversions; the statement ends
    with a line feed. *)
Definition coneSearch (ra dec sr : float) : string :=
  "SELECT *" ++ LF ++
  "FROM ivoa.ObsCore" ++ LF ++
  "WHERE intersects(s_region, circle('', "
    ++ format_f ra ++ ", " ++ format_f dec ++ ", " ++ format_f sr ++ "))=1" ++ LF.

(** Cell 17: [sr = 2.5/60.] *)
Definition sr : float := (2.5 / 60)%float.

(** The coordinates of the vertices, one after the other. *)
Fixpoint coordinates (vs : list (string * string)) : list string :=
  match vs with
  | [] => []
  | (ra, dec) :: vs' => ra :: dec :: coordinates vs'
  end.

(** The statements of cells 23 and 26 as the notebook holds them. *)
Definition query_cell23 : string :=
  "SELECT t_min, abmaglim, dataproduct_type as type, dp_id, obs_release_date" ++ LF ++
  "FROM ivoa.ObsCore" ++ LF ++
  "WHERE CONTAINS(point('', 193.815, 0.099819), s_region)=1" ++ LF ++
  "AND dataproduct_type in ('image', 'cube')" ++ LF ++
  "ORDER BY t_min asc".

Definition query_cell26 : string :=
  "SELECT t_min, s_fov, dataproduct_type as type, dp_id, obs_release_date" ++ LF ++
  "FROM ivoa.ObsCore" ++ LF ++
  "WHERE CONTAINS(CIRCLE('', 11.888002, -25.288220, 0.21), s_region)=1" ++ LF ++
  "AND dataproduct_type in ('image', 'cube')" ++ LF ++
  "ORDER BY t_min asc".

(** The polygon the comment of cell 26 offers in place of the circle. *)
Definition ngc253_comment : string :=
  "CONTAINS(POLYGON('J2000', 11.69167, -25.42802, 11.70837, -25.39377, 11.82948, -25.28317, 11.95405, -25.1965, 12.04864, -25.15928, 12.05789, -25.19052, 11.95461, -25.28743, 11.84107, -25.37337, 11.75762, -25.41363), s_region)=1".

(** The confidence contour of GW170817 of cell 29, vertex by vertex. *)
Definition gw170817 : list (string * string) :=
  [ ("196.8311", "-23.5212"); ("196.7432", "-23.3586"); ("196.6553", "-23.1962"); ("196.4795", "-23.0339");
    ("196.3916", "-22.8719"); ("196.3037", "-22.71"); ("196.2158", "-22.5484"); ("196.1279", "-22.3869");
    ("196.04", "-22.2257"); ("195.9521", "-22.0646"); ("195.8643", "-21.9037"); ("195.7764", "-21.7429");
    ("195.7764", "-21.5824"); ("195.6885", "-21.422"); ("195.6006", "-21.2618"); ("195.5127", "-21.1018");
    ("195.4248", "-20.942"); ("195.3369", "-20.7823"); ("195.3369", "-20.6228"); ("195.249", "-20.4634");
    ("195.1611", "-20.3043"); ("195.1611", "-20.1452"); ("195.0732", "-19.9864"); ("194.9854", "-19.8277");
    ("194.8975", "-19.6692"); ("194.8975", "-19.5108"); ("194.8096", "-19.3526"); ("194.7217", "-19.1945");
    ("194.6338", "-19.0366"); ("194.6338", "-18.8788"); ("194.5459", "-18.7212"); ("194.458", "-18.5637");
    ("194.458", "-18.4064"); ("194.3701", "-18.2492"); ("194.458", "-18.0922"); ("194.458", "-17.9353");
    ("194.6338", "-18.0137"); ("194.8096", "-18.1707"); ("194.9854", "-18.3278"); ("195.0732", "-18.4851");
    ("195.1611", "-18.6425"); ("195.249", "-18.8"); ("195.3369", "-18.9577"); ("195.4248", "-19.1155");
    ("195.5127", "-19.2735"); ("195.6006", "-19.4317"); ("195.6885", "-19.59"); ("195.8643", "-19.7484");
    ("195.9521", "-19.907"); ("196.1279", "-20.0658"); ("196.2158", "-20.2247"); ("196.3916", "-20.3838");
    ("196.4795", "-20.5431"); ("196.5674", "-20.7025"); ("196.6553", "-20.8621"); ("196.7432", "-21.0219");
    ("196.8311", "-21.1818"); ("196.9189", "-21.3419"); ("196.9189", "-21.5022"); ("197.0068", "-21.6626");
    ("197.0947", "-21.8233"); ("197.1826", "-21.9841"); ("197.2705", "-22.1451"); ("197.3584", "-22.3063");
    ("197.4463", "-22.4676"); ("197.5342", "-22.6292"); ("197.6221", "-22.7909"); ("197.71", "-22.9529");
    ("197.7979", "-23.115"); ("197.7979", "-23.2773"); ("197.8857", "-23.4399"); ("197.9736", "-23.6026");
    ("198.0615", "-23.7655"); ("198.1494", "-23.9287"); ("198.2373", "-24.092"); ("198.3252", "-24.2556");
    ("198.4131", "-24.4193"); ("198.501", "-24.5833"); ("198.501", "-24.7475"); ("198.5889", "-24.9119");
    ("198.6768", "-25.0765"); ("198.7646", "-25.2414"); ("198.8525", "-25.4064"); ("198.9404", "-25.5717");
    ("199.0283", "-25.7373"); ("199.0283", "-25.903"); ("199.1162", "-26.069"); ("199.1162", "-26.2352");
    ("199.2041", "-26.4017"); ("199.2041", "-26.5684"); ("199.2041", "-26.7353"); ("199.2041", "-26.9025");
    ("199.1162", "-26.9025"); ("198.9404", "-26.7353"); ("198.7646", "-26.5684"); ("198.5889", "-26.4017");
    ("198.501", "-26.2352"); ("198.4131", "-26.069"); ("198.2373", "-25.903"); ("198.1494", "-25.7373");
    ("198.0615", "-25.5717"); ("197.9736", "-25.4064"); ("197.8857", "-25.2414"); ("197.7979", "-25.0765");
    ("197.71", "-24.9119"); ("197.6221", "-24.7475"); ("197.5342", "-24.5833"); ("197.3584", "-24.4193");
    ("197.2705", "-24.2556"); ("197.1826", "-24.092"); ("197.0947", "-23.9287"); ("197.0068", "-23.7655");
    ("196.9189", "-23.6026") ].

(** The statement of cell 29 as the notebook holds it. *)
Definition query_cell29 : string :=
  "SELECT t_min, snr, abmaglim, dataproduct_type as type, dp_id" ++ LF ++
  "FROM ivoa.ObsCore" ++ LF ++
  ("WHERE INTERSECTS(s_region, POLYGON('J2000'" ++
   ", 196.8311,-23.5212, 196.7432,-23.3586, 196.6553,-23.1962, 196.4795,-23.0339" ++
   ", 196.3916,-22.8719, 196.3037,-22.71, 196.2158,-22.5484, 196.1279,-22.3869" ++
   ", 196.04,-22.2257, 195.9521,-22.0646, 195.8643,-21.9037, 195.7764,-21.7429" ++
   ", 195.7764,-21.5824, 195.6885,-21.422, 195.6006,-21.2618, 195.5127,-21.1018" ++
   ", 195.4248,-20.942, 195.3369,-20.7823, 195.3369,-20.6228, 195.249,-20.4634" ++
   ", 195.1611,-20.3043, 195.1611,-20.1452, 195.0732,-19.9864, 194.9854,-19.8277" ++
   ", 194.8975,-19.6692, 194.8975,-19.5108, 194.8096,-19.3526, 194.7217,-19.1945" ++
   ", 194.6338,-19.0366, 194.6338,-18.8788, 194.5459,-18.7212, 194.458,-18.5637" ++
   ", 194.458,-18.4064, 194.3701,-18.2492, 194.458,-18.0922, 194.458,-17.9353" ++
   ", 194.6338,-18.0137, 194.8096,-18.1707, 194.9854,-18.3278, 195.0732,-18.4851" ++
   ", 195.1611,-18.6425, 195.249,-18.8, 195.3369,-18.9577, 195.4248,-19.1155" ++
   ", 195.5127,-19.2735, 195.6006,-19.4317, 195.6885,-19.59, 195.8643,-19.7484" ++
   ", 195.9521,-19.907, 196.1279,-20.0658, 196.2158,-20.2247, 196.3916,-20.3838" ++
   ", 196.4795,-20.5431, 196.5674,-20.7025, 196.6553,-20.8621, 196.7432,-21.0219" ++
   ", 196.8311,-21.1818, 196.9189,-21.3419, 196.9189,-21.5022, 197.0068,-21.6626" ++
   ", 197.0947,-21.8233, 197.1826,-21.9841, 197.2705,-22.1451, 197.3584,-22.3063" ++
   ", 197.4463,-22.4676, 197.5342,-22.6292, 197.6221,-22.7909, 197.71,-22.9529" ++
   ", 197.7979,-23.115, 197.7979,-23.2773, 197.8857,-23.4399, 197.9736,-23.6026" ++
   ", 198.0615,-23.7655, 198.1494,-23.9287, 198.2373,-24.092, 198.3252,-24.2556" ++
   ", 198.4131,-24.4193, 198.501,-24.5833, 198.501,-24.7475, 198.5889,-24.9119" ++
   ", 198.6768,-25.0765, 198.7646,-25.2414, 198.8525,-25.4064, 198.9404,-25.5717" ++
   ", 199.0283,-25.7373, 199.0283,-25.903, 199.1162,-26.069, 199.1162,-26.2352" ++
   ", 199.2041,-26.4017, 199.2041,-26.5684, 199.2041,-26.7353, 199.2041,-26.9025" ++
   ", 199.1162,-26.9025, 198.9404,-26.7353, 198.7646,-26.5684, 198.5889,-26.4017" ++
   ", 198.501,-26.2352, 198.4131,-26.069, 198.2373,-25.903, 198.1494,-25.7373" ++
   ", 198.0615,-25.5717, 197.9736,-25.4064, 197.8857,-25.2414, 197.7979,-25.0765" ++
   ", 197.71,-24.9119, 197.6221,-24.7475, 197.5342,-24.5833, 197.3584,-24.4193" ++
   ", 197.2705,-24.2556, 197.1826,-24.092, 197.0947,-23.9287, 197.0068,-23.7655" ++
   ", 196.9189,-23.6026))=1") ++ LF ++
  "ORDER BY t_min asc".

(** Cell 31: the spatial join of the J and H band source tables. *)
Definition query_cell31 : string :=
  "SELECT J.* FROM" ++ LF ++
  "      (select * FROM ivoa.Obscore WHERE dataproduct_subtype ='srctbl' " ++ LF ++
  "      AND obs_collection = 'HAWKI' " ++ LF ++
  "      AND gal_lat < 10 AND gal_lat > -10 " ++ LF ++
  "      AND em_min < 1.265E-6 AND em_max > 1.265E-6 ) J, " ++ LF ++
  LF ++
  "      (select * FROM ivoa.Obscore WHERE dataproduct_subtype ='srctbl' " ++ LF ++
  "      AND obs_collection = 'HAWKI' " ++ LF ++
  "      AND gal_lat < 10 AND gal_lat > -10 " ++ LF ++
  "      AND em_min < 1.66E-6 AND em_max > 1.66E-6 ) H " ++ LF ++
  LF ++
  "WHERE INTERSECTS( J.s_region , H.s_region)=1 and " ++ LF ++
  "ESO_INTERSECTION( J.s_region , H.s_region) > 0.8*AREA( J.s_region )".

(** Cell 34: wavelengths shown in nanometres. *)
Definition query_cell34 : string :=
  "SELECT obs_collection as collection, dataproduct_type as type, " ++ LF ++
  "dataproduct_subtype as subtype, em_min*1E9 min_wavel_nm, em_max*1E9 max_wavel_nm, em_res_power" ++ LF ++
  "FROM ivoa.ObsCore" ++ LF ++
  "WHERE target_name = 'a370'" ++ LF ++
  "and em_res_power < 3000".

(** Cell 36: the columns of the table and their units. *)
Definition query_cell36 : string :=
  "SELECT column_name, unit, ucd -- and others like description, etc." ++ LF ++
  "from TAP_SCHEMA.Columns" ++ LF ++
  "where table_name='ivoa.ObsCore'".

(** The values the cells give to their own arguments. *)
Definition dp_id_cell5 : string := "ADP.2013-12-10T16:12:17.697".
Definition origfile_cell12 : string :=
  "UV_SFLX_981908_2013-10-31T02:09:09.322_BLU390d1_2x2_11.fits".

(** Every statement the notebook sends; the position of cell 17 comes from
    the name resolver. *)
Definition notebook_queries (ra dec : float) : list string :=
  [ byIdentifier dp_id_cell5; byOriginalFilename origfile_cell12;
    coneSearch ra dec sr; query_cell23; query_cell26;
    query_cell29; query_cell31; query_cell34;
    query_cell36 ].

End Notebook.

(** ** The archive behind the statements *)

Module Archive.
Import Adql Notebook.

(** Cell 4: the VO identifier of a dataset is the constant
    [ivo://eso.org/ID?] in front of its ESO identifier; the first is stored
    in [obs_publisher_did], the second in [dp_id]. *)
Definition ivorn_consistent (r : row) : bool :=
  match column "dp_id" r, column "obs_publisher_did" r with
  | Some d, Some p => String.eqb p (ivorn_of d)
  | _, _ => false
  end.

Definition archive_invariant (t : list row) : bool := forallb ivorn_consistent t.

(** Cell 34 shows wavelengths in nanometres by this factor. *)
Definition display_factor : string := "1E9".

(** HAWKI observes between 1 and 2.5 micrometres: a wavelength of its J or H
    band written in metres lies between 1E-6 and 2.5E-6, and the same
    wavelength in the nanometres of cell 34 between 1000 and 2500. *)
Definition near_infrared_metres (v : Q) : bool :=
  Qle_bool (1 # 1000000) v && Qle_bool v (25 # 10000000).

Definition near_infrared_nanometres (v : Q) : bool :=
  Qle_bool 1000 v && Qle_bool v 2500.

(** The use a statement makes of a spectral-bound column respects the units:
    a comparison sits in a WHERE clause and its literal is a wavelength in
    metres, free of the display factor; a multiplication by the display
    factor sits in the SELECT clause. *)
Definition unit_respecting (u : em_use) : bool :=
  match u with
  | Constraint cl _ _ lit =>
      clause_eqb cl InWhere &&
      match parse_decimal lit, parse_decimal display_factor with
      | Some v, Some f =>
          near_infrared_metres v && near_infrared_nanometres (Qmult v f)
      | _, _ => false
      end
  | Rescaled cl _ f => clause_eqb cl InSelect && String.eqb f display_factor
  | OtherUse _ _ => false
  end.

End Archive.

(** ** The cells that show a result *)

Module Display.
Import Printf Adql.

Fixpoint blanks (n : nat) : string :=
  match n with
  | O => EmptyString
  | S n' => String " " (blanks n')
  end.

(** [{:20s}]: blanks after the text up to twenty characters; a longer text
    is kept whole. *)
Definition pad20 (s : string) : string := s ++ blanks (20 - String.length s).

Definition TAB : string := String (ascii_of_nat 9) EmptyString.

(** What ends a showing cell: its last statement, or the exception of
    [res[colname][0]]. *)
Inductive outcome : Type :=
| Done
| IndexError
| KeyError (name : string).

(** Cell 9, one line: ["{:20s} \t = \t {}".format(colname, value)]. *)
Definition line9 (colname value : string) : string :=
  pad20 colname ++ " " ++ TAB ++ " = " ++ TAB ++ " " ++ value.

(** Cell 9: for each column name, the value of the first row; [res[colname]]
    needs the column and [[0]] needs a first row.  The lines printed before
    an exception stay printed. *)
Fixpoint cell9 (colnames : list string) (res : list row) : list string * outcome :=
  match colnames with
  | [] => ([], Done)
  | c :: cs =>
      match res with
      | [] => ([], IndexError)
      | r :: _ =>
          match column c r with
          | None => ([], KeyError c)
          | Some v =>
              let (ls, o) := cell9 cs res in (line9 c v :: ls, o)
          end
      end
  end.

(** A value of a result row as pyvo hands it on: bytes or text. *)
Inductive value : Type :=
| Bytes (s : string)
| Str (s : string).

(** [v.decode()]: the text of the bytes; a [str] has no such method and the
    call raises AttributeError. *)
Definition decode (v : value) : option string :=
  match v with
  | Bytes s => Some s
  | Str _ => None
  end.

(** Cell 36, one line: ["{:20s} \t {}\t{}".format(name, unit, ucd)]. *)
Definition line36 (name unit ucd : string) : string :=
  pad20 name ++ " " ++ TAB ++ " " ++ unit ++ TAB ++ ucd.

(** Cell 20: [Counter(dp_types)].  A Counter is a dict: a new key goes to
    the end, a known key has its count raised in place. *)
Fixpoint bump (k : string) (c : list (string * nat)) : list (string * nat) :=
  match c with
  | [] => [(k, 1%nat)]
  | (k', n) :: c' =>
      if String.eqb k k' then (k', S n) :: c' else (k', n) :: bump k c'
  end.

Definition Counter (l : list string) : list (string * nat) :=
  fold_left (fun c k => bump k c) l [].

(** [counter[k]]: a missing key counts zero. *)
Fixpoint get_count (k : string) (c : list (string * nat)) : nat :=
  match c with
  | [] => O
  | (k', n) :: c' => if String.eqb k k' then n else get_count k c'
  end.

Fixpoint total (c : list (string * nat)) : nat :=
  match c with
  | [] => O
  | (_, n) :: c' => (n + total c')%nat
  end.

End Display.

(** ** The cells that call [tapobs.search] *)

Module Client.
Import Printf Notebook.

Section Programs.

(** The rows of pyvo's result and the exceptions of Python are given; so is
    the text [print] shows for a result, and the three values
    [row['column_name']], [row['unit']] and [row['ucd']] cell 36 reads from a
    row. *)
Variables (row error : Type).
Variable show_results : list row -> string.
Variable show_table : list row -> string.
Variable columns36 : row -> Display.value * Display.value * Display.value.

(** The exception a [.decode()] on a [str] raises. *)
Variable AttributeError : error.

Inductive response : Type :=
| Rows (t : list row)
| Failure (e : error).

(** A cell: it returns, calls [tapobs.search(query, maxrec)] and goes on with
    the result, prints a line and goes on, or raises an exception of its
    own.  No cell has a [try]: an exception ends the cell. *)
Inductive prog (A : Type) : Type :=
| Ret (a : A)
| Search (query : string) (maxrec : option N) (k : list row -> prog A)
| Print (line : string) (k : prog A)
| Raise (e : error).

Arguments Ret {A} a.
Arguments Search {A} query maxrec k.
Arguments Print {A} line k.
Arguments Raise {A} e.

Inductive event : Type :=
| Requested (query : string) (maxrec : option N)
| Printed (line : string).

(** The service answers the [n]-th request it receives; a second request
    for the same statement may be answered differently. *)
Definition service : Type := nat -> string -> option N -> response.

Fixpoint run {A : Type} (p : prog A) (svc : service) (n : nat)
  : list event * (A + error) :=
  match p with
  | Ret a => ([], inl a)
  | Search q m k =>
      match svc n q m with
      | Rows t =>
          let (tr, r) := run (k t) svc (S n) in (Requested q m :: tr, r)
      | Failure e => ([Requested q m], inr e)
      end
  | Print line k =>
      let (tr, r) := run k svc n in (Printed line :: tr, r)
  | Raise e => ([], inr e)
  end.

Fixpoint requests (tr : list event) : list (string * option N) :=
  match tr with
  | [] => []
  | Requested q m :: tr' => (q, m) :: requests tr'
  | Printed _ :: tr' => requests tr'
  end.

(** The call a cell starts with, after its prints. *)
Fixpoint first_request {A : Type} (p : prog A) : option (string * option N) :=
  match p with
  | Ret _ => None
  | Search q m _ => Some (q, m)
  | Print _ k => first_request k
  | Raise _ => None
  end.

Definition num_matching (res : list row) : string :=
  "Num matching datasets: " ++ decimal (Z.of_nat (List.length res)).

(** Cell 7. *)
Definition cell7 (query : string) : prog (list row) :=
  Search query None (fun res => Print (show_results res) (Ret res)).

(** Cell 18. *)
Definition cell18 (query : string) : prog (list row) :=
  Search query (Some 1000%N) (fun res => Print (num_matching res) (Ret res)).

(** Cells 23, 26 and 29: print the statement, search, print the count and the
    table. *)
Definition search_and_show (query : string) (maxrec : N) : prog (list row) :=
  Print query
    (Search query (Some maxrec) (fun res =>
       Print (num_matching res) (Print (show_table res) (Ret res)))).

Definition cell23 : prog (list row) := search_and_show query_cell23 1000.
Definition cell26 : prog (list row) := search_and_show query_cell26 1000.
Definition cell29 : prog (list row) := search_and_show query_cell29 2000.

(** Cell 31. *)
Definition cell31 : prog (list row) :=
  Search query_cell31 (Some 20000%N) (fun res =>
    Print EmptyString
      (Print (num_matching res) (Print (show_table res) (Ret res)))).

(** Cell 34. *)
Definition cell34 : prog (list row) :=
  Search query_cell34 (Some 3%N) (fun res => Print (show_table res) (Ret res)).

Definition TAB : string := String (ascii_of_nat 9) EmptyString.

(** Cell 36, the line of a row: the three values decoded from left to
    right, then formatted; nothing when one of them is a [str]. *)
Definition row_line (r : row) : option string :=
  let '(name, unit, ucd) := columns36 r in
  match Display.decode name, Display.decode unit, Display.decode ucd with
  | Some n, Some u, Some d => Some (Display.line36 n u d)
  | _, _, _ => None
  end.

Definition decodable (r : row) : bool :=
  match row_line r with
  | Some _ => true
  | None => false
  end.

(** Cell 36, the loop: a line for each row, until a [.decode()] raises. *)
Fixpoint list_rows (rows : list row) (k : prog (list row)) : prog (list row) :=
  match rows with
  | [] => k
  | r :: rs =>
      match row_line r with
      | Some line => Print line (list_rows rs k)
      | None => Raise AttributeError
      end
  end.

(** The lines the loop shows for rows that decode. *)
Fixpoint shown (rows : list row) : list event :=
  match rows with
  | [] => []
  | r :: rs =>
      match row_line r with
      | Some line => Printed line :: shown rs
      | None => shown rs
      end
  end.

(** Cell 36: two heading lines, then the loop over the rows. *)
Definition cell36 : prog (list row) :=
  Search query_cell36 None (fun res =>
    Print ("column_name          " ++ TAB ++ " unit" ++ TAB ++ "UCD")
      (Print ("-------------------- " ++ TAB ++ " ------" ++ TAB ++ "---------------------------")
         (list_rows res (Ret res)))).

(** The searching cells of the notebook, in order. *)
Definition operations (ra dec : float) : list (prog (list row)) :=
  [ cell7 (byIdentifier dp_id_cell5); cell18 (coneSearch ra dec sr);
    cell23; cell26; cell29; cell31; cell34; cell36 ].

End Programs.

Arguments Rows {row error} t.
Arguments Failure {row error} e.
Arguments Ret {row error A} a.
Arguments Search {row error A} query maxrec k.
Arguments Print {row error A} line k.
Arguments Raise {row error A} e.
Arguments run {row error A} p svc n.
Arguments first_request {row error A} p.
Arguments num_matching {row} res.
Arguments cell7 {row error} show_results query.
Arguments cell18 {row error} query.
Arguments search_and_show {row error} show_table query maxrec.
Arguments cell23 {row error} show_table.
Arguments cell26 {row error} show_table.
Arguments cell29 {row error} show_table.
Arguments cell31 {row error} show_table.
Arguments cell34 {row error} show_table.
Arguments row_line {row} columns36 r.
Arguments decodable {row} columns36 r.
Arguments list_rows {row error} columns36 AttributeError rows k.
Arguments shown {row} columns36 rows.
Arguments cell36 {row error} columns36 AttributeError.
Arguments operations {row error} show_results show_table columns36 AttributeError ra dec.

End Client.

(** ** Numbers a statement can carry exactly *)

Module Rounding.
Import Printf.

(** Neither an infinity nor a NaN. *)
Definition finite (x : float) : bool :=
  match Prim2SF x with
  | S754_zero _ | S754_finite _ _ _ => true
  | S754_infinity _ | S754_nan => false
  end.

(** The value has at most six decimals: a million times it is an integer. *)
Definition six_decimals (x : float) : bool :=
  match Prim2SF x with
  | S754_zero _ => true
  | S754_finite _ m e =>
      if (0 <=? e)%Z then true
      else ((Z.pos m * 1000000) mod 2 ^ (- e) =? 0)%Z
  | S754_infinity _ | S754_nan => false
  end.

(** Half a unit of the sixth decimal. *)
Definition half_ulp6 : Q := 1 # 2000000.

End Rounding.

(** * Properties *)

Import Printf Adql Notebook Archive.

(** ** Strings *)

Lemma append_nil_r (s : string) : s ++ EmptyString = s.
Proof. induction s as [|c s IH]; simpl; [reflexivity | now rewrite IH]. Qed.

Lemma append_assoc (a b c : string) : (a ++ b) ++ c = a ++ (b ++ c).
Proof. induction a as [|x a IH]; simpl; [reflexivity | now rewrite IH]. Qed.

Lemma snoc_append (s t : string) (c : ascii) : snoc s c ++ t = s ++ String c t.
Proof. unfold snoc. now rewrite append_assoc. Qed.

Lemma all_chars_app (p : ascii -> bool) (a b : string) :
  all_chars p (a ++ b) = all_chars p a && all_chars p b.
Proof.
  induction a as [|x a IH]; simpl; [reflexivity|].
  now rewrite IH, andb_assoc.
Qed.

Lemma all_chars_impl (p q : ascii -> bool) (s : string) :
  (forall c, p c = true -> q c = true) ->
  all_chars p s = true -> all_chars q s = true.
Proof.
  intros Hpq. induction s as [|c s IH]; simpl; [reflexivity|].
  intros H. apply andb_true_iff in H as [Hc Hs].
  now rewrite (Hpq c Hc), IH.
Qed.

(** ** Python's conversions on examples *)

Example format_f_sr : format_f sr = "0.041667".
Proof. vm_compute. reflexivity. Qed.

Example format_f_negative : format_f (-25.288220)%float = "-25.288220".
Proof. vm_compute. reflexivity. Qed.

Example format_f_large : format_f (1e22)%float = "10000000000000000000000.000000".
Proof. vm_compute. reflexivity. Qed.

Example format_f_rounds_up : format_f (0.0000015)%float = "0.000002".
Proof. vm_compute. reflexivity. Qed.

Example format_f_negative_zero : format_f (-0)%float = "-0.000000".
Proof. vm_compute. reflexivity. Qed.

(** The statement of cell 12 at the cell's own file name. *)
Example byOriginalFilename_cell12 :
  byOriginalFilename origfile_cell12
  = "SELECT *" ++ LF ++ "FROM ivoa.ObsCore" ++ LF ++
    "WHERE obs_creator_did = 'ivo://eso.org/origfile?UV_SFLX_981908_2013-10-31T02:09:09.322_BLU390d1_2x2_11.fits'".
Proof. reflexivity. Qed.

(** ** Identifier look-up *)

Lemma lex_app (a b : string) (st : lex_state) :
  lex (a ++ b) st = lex b (lex a st).
Proof. revert st. induction a as [|c a IH]; simpl; intros st; [reflexivity | apply IH]. Qed.

Lemma lex_literal (s k : string) (w : string) (n : nat) :
  quote_free s = true ->
  lex (s ++ k) (Lex true w n) = lex k (Lex true w n).
Proof.
  induction s as [|c s IH]; simpl; intros H; [reflexivity|].
  apply andb_true_iff in H as [Hc Hs]. rewrite Hc. now apply IH.
Qed.

Lemma take_literal_quote_free (s r : string) :
  quote_free s = true ->
  take_literal (s ++ String apostrophe r) = Some (s, r).
Proof.
  induction s as [|c s IH]; simpl; intros H; [reflexivity|].
  apply andb_true_iff in H as [Hc Hs].
  apply negb_true_iff in Hc. rewrite Hc, (IH Hs). reflexivity.
Qed.

Lemma parse_byIdentifier (id : string) :
  parse_equality (byIdentifier id) =
  match take_literal (id ++ "'") with
  | Some (l, EmptyString) => Some ("dp_id", l)
  | _ => None
  end.
Proof. reflexivity. Qed.

Lemma take_literal_ivorn (s : string) :
  take_literal (ivorn_of s) =
  match take_literal s with
  | Some (l, r) => Some (ivorn_of l, r)
  | None => None
  end.
Proof.
  unfold ivorn_of. cbn -[take_literal].
  cbn [take_literal]. cbn.
  destruct (take_literal s) as [[l r]|]; reflexivity.
Qed.

Lemma parse_byPublisherDid (id : string) :
  parse_equality (byPublisherDid id) =
  match take_literal (id ++ "'") with
  | Some (l, EmptyString) => Some ("obs_publisher_did", ivorn_of l)
  | _ => None
  end.
Proof.
  change (parse_equality (byPublisherDid id)) with
    (match take_literal (ivorn_of (id ++ "'")) with
     | Some (l, EmptyString) => Some ("obs_publisher_did", l)
     | _ => None
     end).
  rewrite take_literal_ivorn.
  destruct (take_literal (id ++ "'")) as [[l [|c r]]|]; reflexivity.
Qed.

Lemma matches_ivorn (l : string) (r : row) :
  ivorn_consistent r = true ->
  matches "obs_publisher_did" (ivorn_of l) r = matches "dp_id" l r.
Proof.
  unfold ivorn_consistent, matches.
  destruct (column "dp_id" r) as [d|]; [|discriminate].
  destruct (column "obs_publisher_did" r) as [p|]; [|discriminate].
  intros H. apply String.eqb_eq in H. subst p. reflexivity.
Qed.

Lemma filter_ivorn (l : string) (t : list row) :
  archive_invariant t = true ->
  filter (matches "obs_publisher_did" (ivorn_of l)) t = filter (matches "dp_id" l) t.
Proof.
  unfold archive_invariant.
  induction t as [|r t IH]; simpl; intros H; [reflexivity|].
  apply andb_true_iff in H as [Hr Ht].
  now rewrite (matches_ivorn l r Hr), (IH Ht).
Qed.

(** C2, as the claim words it, fails: the statement of cell 5 holds a line
    feed after [SELECT *] and after [FROM ivoa.ObsCore], where the claimed
    text has a blank. *)
Lemma byIdentifier_scenario_not_one_line :
  byIdentifier "ADP.2013-12-10T16:12:17.697"
  <> "SELECT * FROM ivoa.ObsCore WHERE dp_id = 'ADP.2013-12-10T16:12:17.697'".
Proof. intros H. vm_compute in H. discriminate H. Qed.

(** C2, amended: the statement of the scenario is the claimed text with a
    line feed, not a blank, after [SELECT *] and after [FROM ivoa.ObsCore];
    with its line feeds replaced by blanks it is the claimed text. *)
Theorem byIdentifier_scenario :
  byIdentifier "ADP.2013-12-10T16:12:17.697"
  = "SELECT *" ++ LF ++ "FROM ivoa.ObsCore" ++ LF ++
    "WHERE dp_id = 'ADP.2013-12-10T16:12:17.697'"
  /\ unfold_lines (byIdentifier "ADP.2013-12-10T16:12:17.697")
     = "SELECT * FROM ivoa.ObsCore WHERE dp_id = 'ADP.2013-12-10T16:12:17.697'".
Proof. split; reflexivity. Qed.

(** C1, as the claim words it, fails: a non-empty identifier that closes the
    literal and brings a subquery gives a statement with two WHERE
    clauses. *)
Lemma byIdentifier_two_where_clauses :
  "a' OR dp_id IN (SELECT dp_id FROM ivoa.ObsCore WHERE t_min > 0) OR dp_id = 'a"
    <> EmptyString
  /\ where_clauses
       (byIdentifier
          "a' OR dp_id IN (SELECT dp_id FROM ivoa.ObsCore WHERE t_min > 0) OR dp_id = 'a")
     = 2%nat.
Proof. split; [discriminate | reflexivity]. Qed.

(** C1, amended: for every identifier the text between [WHERE dp_id = '] and
    the closing apostrophe is the identifier, character for character; and
    for every identifier without an apostrophe the statement has exactly one
    WHERE clause, which compares the column [dp_id] with the identifier
    itself. *)
Theorem byIdentifier_one_where_clause (id : string) :
  find_after "WHERE dp_id = '" (byIdentifier id) = Some (id ++ "'")
  /\ (quote_free id = true ->
      where_clauses (byIdentifier id) = 1%nat
      /\ parse_equality (byIdentifier id) = Some ("dp_id", id)).
Proof.
  split; [reflexivity|]. intros Hid. split.
  - unfold where_clauses.
    change (byIdentifier id) with
      (("SELECT *" ++ LF ++ "FROM ivoa.ObsCore" ++ LF ++ "WHERE dp_id = '")
         ++ (id ++ "'")).
    rewrite lex_app.
    change (lex ("SELECT *" ++ LF ++ "FROM ivoa.ObsCore" ++ LF ++ "WHERE dp_id = '")
              (Lex false EmptyString 0))
      with (Lex true EmptyString 1).
    rewrite (lex_literal id "'" EmptyString 1 Hid). reflexivity.
  - rewrite parse_byIdentifier.
    change (id ++ "'") with (id ++ String apostrophe EmptyString).
    now rewrite (take_literal_quote_free id EmptyString Hid).
Qed.

Lemma byIdentifier_one_where_clause_witness :
  quote_free dp_id_cell5 = true
  /\ where_clauses (byIdentifier dp_id_cell5) = 1%nat
  /\ parse_equality (byIdentifier dp_id_cell5) = Some ("dp_id", dp_id_cell5).
Proof.
  split; [reflexivity|].
  exact (proj2 (byIdentifier_one_where_clause dp_id_cell5) eq_refl).
Defined.

(** The text up to the first apostrophe of an identifier closed by an
    apostrophe, and the text behind it. *)
Lemma split_first_apostrophe (s : string) :
  exists l r,
    s ++ "'" = l ++ "'" ++ r
    /\ quote_free l = true
    /\ (quote_free s = true -> l = s /\ r = EmptyString).
Proof.
  unfold quote_free.
  induction s as [|c s IH].
  - exists EmptyString, EmptyString. repeat split; reflexivity.
  - destruct (is_apostrophe c) eqn:Hc.
    + exists EmptyString, (s ++ "'"). split; [|split].
      * apply Ascii.eqb_eq in Hc. subst c. reflexivity.
      * reflexivity.
      * cbn [all_chars]. rewrite Hc. discriminate.
    + destruct IH as (l & r & E & Hl & Hs).
      exists (String c l), r. split; [|split].
      * cbn [append]. now rewrite E.
      * cbn [all_chars]. now rewrite Hc, Hl.
      * cbn [all_chars]. rewrite Hc. cbn [negb andb].
        intros H. destruct (Hs H) as [-> ->]. split; reflexivity.
Qed.




(** ** Cone search *)

(** C4: at ra=185.583, dec=13.093, radius=0.0417 the WHERE line of the cone
    search is [intersects(s_region, circle('', 185.583000, 13.093000,
    0.041700))=1]: [s_region] first, the circle second, six digits after
    each point, right ascension, declination, radius in this order. *)
Theorem coneSearch_scenario :
  coneSearch 185.583 13.093 0.0417
  = "SELECT *" ++ LF ++ "FROM ivoa.ObsCore" ++ LF ++
    "WHERE intersects(s_region, circle('', 185.583000, 13.093000, 0.041700))=1" ++ LF
  /\ call_args "intersects" (coneSearch 185.583 13.093 0.0417)
     = Some ["s_region"; "circle('', 185.583000, 13.093000, 0.041700)"]
  /\ call_args "circle" (coneSearch 185.583 13.093 0.0417)
     = Some ["''"; "185.583000"; "13.093000"; "0.041700"].
Proof. repeat split; vm_compute; reflexivity. Qed.

(** C6: the three numeric literals read back from the cone search built at
    ra=185.5, dec=10.0, radius=0.5 are the three numbers 185.5, 10 and 0.5
    themselves. *)
Theorem coneSearch_round_trip :
  cone_literals (coneSearch 185.5 10.0 0.5) = float_values [185.5; 10.0; 0.5]%float
  /\ float_values [185.5; 10.0; 0.5]%float = Some [371 # 2; 10 # 1; 1 # 2].
Proof. split; vm_compute; reflexivity. Qed.

(** *** The shape of a [%f] conversion *)

Lemma digit_char_digit (d : Z) : is_digit (digit_char (d mod 10)) = true.
Proof.
  assert (H : (0 <= d mod 10 < 10)%Z) by (apply Z.mod_pos_bound; lia).
  unfold digit_char.
  assert (Hk : (Z.to_nat (d mod 10) < 10)%nat) by lia.
  revert Hk. generalize (Z.to_nat (d mod 10)) as k. intros k Hk.
  do 10 (destruct k as [|k]; [reflexivity|]). lia.
Qed.

Lemma digits_aux_digits (fuel : nat) :
  forall n acc, all_chars is_digit acc = true ->
                all_chars is_digit (digits_aux fuel n acc) = true.
Proof.
  induction fuel as [|fuel IH]; cbn [digits_aux]; intros n acc Hacc; [exact Hacc|].
  assert (Hc : all_chars is_digit (String (digit_char (n mod 10)) acc) = true).
  { cbn [all_chars]. now rewrite digit_char_digit, Hacc. }
  destruct (n <? 10)%Z; [exact Hc | now apply IH].
Qed.

Lemma digits_aux_cons (fuel : nat) :
  forall n c acc, exists c' s, digits_aux fuel n (String c acc) = String c' s.
Proof.
  induction fuel as [|fuel IH]; cbn [digits_aux]; intros n c acc; [now exists c, acc|].
  destruct (n <? 10)%Z; [now eexists; eexists | apply IH].
Qed.

Lemma decimal_digits (n : Z) :
  all_chars is_digit (decimal n) = true
  /\ exists c s, decimal n = String c s.
Proof.
  unfold decimal. split; [now apply digits_aux_digits|].
  cbn [digits_aux]. destruct (n <? 10)%Z; [now eexists; eexists | apply digits_aux_cons].
Qed.

Lemma frac6_digits (r : Z) :
  all_chars is_digit (frac6 r) = true /\ String.length (frac6 r) = 6%nat.
Proof.
  split; [|reflexivity]. unfold frac6. cbn [all_chars].
  now rewrite !digit_char_digit.
Qed.

(** A finite number is converted to digits, a point and six digits, after a
    minus sign when its sign bit is set. *)
Lemma format_f_finite (x : float) :
  match Prim2SF x with
  | S754_infinity _ | S754_nan => True
  | S754_zero s | S754_finite s _ _ =>
      exists ip fp,
        format_f x = sign_text s ++ ip ++ "." ++ fp
        /\ all_chars is_digit ip = true /\ (exists c r, ip = String c r)
        /\ all_chars is_digit fp = true /\ String.length fp = 6%nat
  end.
Proof.
  unfold format_f.
  destruct (Prim2SF x) as [s|s| |s m e]; try exact I.
  - exists (decimal (0 / 1000000)), (frac6 (0 mod 1000000)).
    split; [reflexivity|].
    split; [apply decimal_digits|]. split; [apply decimal_digits|].
    apply frac6_digits.
  - exists (decimal (scaled_round m e / 1000000)),
           (frac6 (scaled_round m e mod 1000000)).
    split; [reflexivity|].
    split; [apply decimal_digits|]. split; [apply decimal_digits|].
    apply frac6_digits.
Qed.

Lemma digit_number_char (c : ascii) : is_digit c = true -> number_char c = true.
Proof. unfold number_char. intros ->. reflexivity. Qed.

Lemma format_f_text (x : float) :
  exists c s, format_f x = String c s
              /\ number_head c = true /\ all_chars number_char s = true.
Proof.
  pose proof (format_f_finite x) as H. unfold format_f in *.
  destruct (Prim2SF x) as [s|s| |s m e].
  - destruct s; vm_compute; eexists; eexists; repeat split.
  - destruct s; vm_compute; eexists; eexists; repeat split.
  - vm_compute; eexists; eexists; repeat split.
  - destruct H as (ip & fp & -> & Hip & (c & r & ->) & Hfp & _).
    simpl in Hip. apply andb_true_iff in Hip as [Hc Hr].
    assert (Htail : all_chars number_char (r ++ "." ++ fp) = true).
    { rewrite all_chars_app. simpl.
      rewrite (all_chars_impl _ _ r digit_number_char Hr).
      now rewrite (all_chars_impl _ _ fp digit_number_char Hfp). }
    destruct s.
    + exists "-"%char, (String c (r ++ "." ++ fp)).
      split; [reflexivity|]. split; [reflexivity|].
      cbn [all_chars]. now rewrite (digit_number_char c Hc), Htail.
    + exists c, (r ++ "." ++ fp).
      split; [reflexivity|]. split; [|exact Htail].
      unfold number_head. now rewrite Hc.
Qed.

Lemma small_radii_differ : (0.00000004 <> 0.00000005)%float.
Proof.
  intros H. apply (f_equal Prim2SF) in H. vm_compute in H. discriminate H.
Qed.

(** C10: a finite number is converted with exactly six digits after the
    point; the radii 0.00000004 and 0.00000005 differ, yet at every position
    they give the same cone search, and the literal read back from it is 0,
    the value of neither. *)
Theorem coneSearch_six_digits_collide :
  (forall x,
      match Prim2SF x with
      | S754_infinity _ | S754_nan => True
      | S754_zero s | S754_finite s _ _ =>
          exists ip fp,
            format_f x = sign_text s ++ ip ++ "." ++ fp
            /\ all_chars is_digit ip = true /\ (exists c r, ip = String c r)
            /\ all_chars is_digit fp = true /\ String.length fp = 6%nat
      end)
  /\ (0.00000004 <> 0.00000005)%float
  /\ (forall ra dec, coneSearch ra dec 0.00000004 = coneSearch ra dec 0.00000005)
  /\ cone_literals (coneSearch 185.5 10.0 0.00000004) = Some [371 # 2; 10 # 1; 0 # 1]
  /\ cone_literals (coneSearch 185.5 10.0 0.00000005) = Some [371 # 2; 10 # 1; 0 # 1]
  /\ float_value 0.00000004 <> Some (0 # 1)
  /\ float_value 0.00000005 <> Some (0 # 1).
Proof.
  split; [exact format_f_finite|].
  split; [exact small_radii_differ|].
  split.
  { intros ra dec. unfold coneSearch.
    change (format_f 0.00000004) with "0.000000".
    change (format_f 0.00000005) with "0.000000". reflexivity. }
  split; [vm_compute; reflexivity|].
  split; [vm_compute; reflexivity|].
  split; intros H; vm_compute in H; discriminate H.
Qed.

(** ** Reading operands *)

Lemma plain_inner (c : ascii) : plain_char c = true -> inner_char c = true.
Proof.
  unfold plain_char, inner_char.
  destruct (is_apostrophe c), (Ascii.eqb c "("), (Ascii.eqb c ")");
    cbn; intros H; first [reflexivity | discriminate H].
Qed.

Lemma scan_app (a b : string) (st : scan_state) :
  scan (a ++ b) st = scan b (scan a st).
Proof.
  revert st. induction a as [|c a IH]; simpl; intros st; [reflexivity | apply IH].
Qed.

Lemma scan_closed (s : string) (a : list string) : scan s (Closed a) = Closed a.
Proof. induction s as [|c s IH]; simpl; [reflexivity | exact IH]. Qed.

(** Inside nested parentheses every character that is no apostrophe and no
    parenthesis joins the operand. *)
Lemma scan_inner (t : string) :
  all_chars inner_char t = true ->
  forall d cur done,
    scan t (Scan (S d) false cur done) = Scan (S d) false (cur ++ t) done.
Proof.
  induction t as [|c t IH]; cbn [all_chars scan]; intros H d cur done.
  - now rewrite append_nil_r.
  - apply andb_true_iff in H as [Hc Ht].
    unfold inner_char in Hc. apply negb_true_iff in Hc.
    apply orb_false_iff in Hc as [Hc Hclose].
    apply orb_false_iff in Hc as [Hq Hopen].
    unfold scan_step. rewrite Hq, Hopen, Hclose.
    replace (if Ascii.eqb c "," then Scan (S d) false (snoc cur c) done
             else if Ascii.eqb c " " then Scan (S d) false (snoc cur c) done
                  else Scan (S d) false (snoc cur c) done)
      with (Scan (S d) false (snoc cur c) done)
      by (destruct (Ascii.eqb c ","), (Ascii.eqb c " "); reflexivity).
    rewrite (IH Ht). now rewrite snoc_append.
Qed.

(** Outside them a text without structure joins the operand. *)
Lemma scan_plain (t : string) :
  all_chars plain_char t = true ->
  forall cur done,
    scan t (Scan O false cur done) = Scan O false (cur ++ t) done.
Proof.
  induction t as [|c t IH]; cbn [all_chars scan]; intros H cur done.
  - now rewrite append_nil_r.
  - apply andb_true_iff in H as [Hc Ht].
    unfold plain_char in Hc. apply negb_true_iff in Hc.
    apply orb_false_iff in Hc as [Hc Hblank].
    apply orb_false_iff in Hc as [Hc Hcomma].
    apply orb_false_iff in Hc as [Hc Hclose].
    apply orb_false_iff in Hc as [Hq Hopen].
    unfold scan_step. rewrite Hq, Hopen, Hclose, Hcomma, Hblank.
    rewrite (IH Ht). now rewrite snoc_append.
Qed.

(** Inside a string literal a text without apostrophe joins the operand. *)
Lemma scan_literal (t : string) :
  quote_free t = true ->
  forall d cur done,
    scan t (Scan d true cur done) = Scan d true (cur ++ t) done.
Proof.
  induction t as [|c t IH]; cbn [quote_free all_chars scan]; intros H d cur done.
  - now rewrite append_nil_r.
  - apply andb_true_iff in H as [Hc Ht]. cbn [scan_step]. rewrite Hc.
    rewrite (IH Ht). now rewrite snoc_append.
Qed.

(** One character read, for the proofs that walk through a literal. *)
Lemma scan_cons (c : ascii) (s : string) (st : scan_state) :
  scan (String c s) st = scan s (scan_step st c).
Proof. reflexivity. Qed.

(** Appends nested to the right, ready to compare. *)
Ltac normalise_append :=
  repeat first [rewrite append_assoc | progress cbn [append]].

(** Single characters of structure. *)
Lemma scan_open (s : string) (d : nat) (cur : string) (done : list string) :
  scan (String "(" s) (Scan d false cur done)
  = scan s (Scan (S d) false (cur ++ "(") done).
Proof. reflexivity. Qed.

Lemma scan_close_inner (s : string) (d : nat) (cur : string) (done : list string) :
  scan (String ")" s) (Scan (S d) false cur done)
  = scan s (Scan d false (cur ++ ")") done).
Proof. reflexivity. Qed.

Lemma scan_close_top (s cur : string) (done : list string) :
  scan (String ")" s) (Scan O false cur done) = Closed (rev (cur :: done)).
Proof. cbn [scan]. apply scan_closed. Qed.

Lemma scan_quote_open (s : string) (d : nat) (cur : string) (done : list string) :
  scan (String apostrophe s) (Scan d false cur done)
  = scan s (Scan d true (cur ++ String apostrophe EmptyString) done).
Proof. reflexivity. Qed.

Lemma scan_quote_close (s : string) (d : nat) (cur : string) (done : list string) :
  scan (String apostrophe s) (Scan d true cur done)
  = scan s (Scan d false (cur ++ String apostrophe EmptyString) done).
Proof. reflexivity. Qed.

Lemma scan_comma_top (s cur : string) (done : list string) :
  scan (String "," s) (Scan O false cur done)
  = scan s (Scan O false EmptyString (cur :: done)).
Proof. reflexivity. Qed.

Lemma scan_blank_skip (s : string) (done : list string) :
  scan (String " " s) (Scan O false EmptyString done)
  = scan s (Scan O false EmptyString done).
Proof. reflexivity. Qed.

(** A call with a frame literal and a text free of structure is read as one
    operand. *)
Lemma scan_call (name frame body : string) (done : list string) :
  all_chars plain_char name = true ->
  quote_free frame = true ->
  all_chars inner_char body = true ->
  scan (name ++ String "(" (String apostrophe
          (frame ++ String apostrophe (body ++ ")"))))
       (Scan O false EmptyString done)
  = Scan O false
      (name ++ String "(" (String apostrophe
         (frame ++ String apostrophe (body ++ ")")))) done.
Proof.
  intros Hname Hframe Hbody.
  rewrite scan_app, (scan_plain name Hname).
  rewrite scan_open, scan_quote_open.
  rewrite scan_app, (scan_literal frame Hframe).
  rewrite scan_quote_close.
  rewrite scan_app, (scan_inner body Hbody).
  rewrite scan_close_inner. cbn [scan].
  f_equal. rewrite !append_assoc. reflexivity.
Qed.

(** ** Spectral bounds *)

Lemma tokens_from_word (w k cur : string) :
  all_chars (fun c => negb (is_blank c)) w = true ->
  tokens_from (w ++ k) cur = tokens_from k (cur ++ w).
Proof.
  revert cur. induction w as [|c w IH]; cbn [all_chars append]; intros cur H.
  - now rewrite append_nil_r.
  - apply andb_true_iff in H as [Hc Hw]. apply negb_true_iff in Hc.
    cbn [tokens_from]. rewrite Hc, (IH _ Hw). now rewrite snoc_append.
Qed.

Lemma number_char_not_blank (c : ascii) :
  number_char c = true -> negb (is_blank c) = true.
Proof. destruct c as [[] [] [] [] [] [] [] []]; vm_compute; congruence. Qed.

Lemma number_head_char (c : ascii) : number_head c = true -> number_char c = true.
Proof. destruct c as [[] [] [] [] [] [] [] []]; vm_compute; congruence. Qed.

(** A token that starts as a converted number is no keyword and names no
    spectral-bound column. *)
Lemma number_token (c : ascii) (s : string) :
  number_head c = true ->
  keyword_clause (String c s) = None /\ em_column (String c s) = None.
Proof.
  destruct c as [[] [] [] [] [] [] [] []]; intros H;
    first [discriminate H | split; reflexivity].
Qed.

Lemma em_walk_number (c : ascii) (s : string) (ts : list string) (cl : clause) :
  number_head c = true ->
  em_walk (String c s :: ts) cl = em_walk ts cl.
Proof.
  intros H. destruct (number_token c s H) as [Hk He].
  cbn [em_walk]. now rewrite Hk, He.
Qed.

(** The cone search never mentions the spectral bounds, whatever the
    position and the radius. *)
Lemma em_uses_coneSearch (ra dec r : float) : em_uses (coneSearch ra dec r) = [].
Proof.
  unfold em_uses, tokens, coneSearch.
  destruct (format_f_text ra) as (ca & sa & -> & Ha & Hsa).
  destruct (format_f_text dec) as (cb & sb & -> & Hb & Hsb).
  destruct (format_f_text r) as (cc & sc & -> & Hc & Hsc).
  assert (Wa : all_chars (fun c => negb (is_blank c)) (String ca sa) = true).
  { cbn [all_chars].
    rewrite (number_char_not_blank ca (number_head_char ca Ha)).
    exact (all_chars_impl _ _ sa number_char_not_blank Hsa). }
  assert (Wb : all_chars (fun c => negb (is_blank c)) (String cb sb) = true).
  { cbn [all_chars].
    rewrite (number_char_not_blank cb (number_head_char cb Hb)).
    exact (all_chars_impl _ _ sb number_char_not_blank Hsb). }
  assert (Wc : all_chars (fun c => negb (is_blank c)) (String cc sc) = true).
  { cbn [all_chars].
    rewrite (number_char_not_blank cc (number_head_char cc Hc)).
    exact (all_chars_impl _ _ sc number_char_not_blank Hsc). }
  change (tokens_from
            ("SELECT *" ++ LF ++ "FROM ivoa.ObsCore" ++ LF ++
             "WHERE intersects(s_region, circle('', " ++ String ca sa ++ ", "
             ++ String cb sb ++ ", " ++ String cc sc ++ "))=1" ++ LF) EmptyString)
    with ("SELECT" :: "*" :: "FROM" :: "ivoa.ObsCore" :: "WHERE"
          :: "intersects(s_region," :: "circle('',"
          :: tokens_from (String ca sa ++ ", " ++ String cb sb ++ ", "
                            ++ String cc sc ++ "))=1" ++ LF) EmptyString).
  rewrite (tokens_from_word _ _ _ Wa).
  change (tokens_from (", " ++ String cb sb ++ ", " ++ String cc sc ++ "))=1" ++ LF)
            (EmptyString ++ String ca sa))
    with (String ca (sa ++ ",")
          :: tokens_from (String cb sb ++ ", " ++ String cc sc ++ "))=1" ++ LF)
               EmptyString).
  rewrite (tokens_from_word _ _ _ Wb).
  change (tokens_from (", " ++ String cc sc ++ "))=1" ++ LF)
            (EmptyString ++ String cb sb))
    with (String cb (sb ++ ",")
          :: tokens_from (String cc sc ++ "))=1" ++ LF) EmptyString).
  rewrite (tokens_from_word _ _ _ Wc).
  change (tokens_from ("))=1" ++ LF) (EmptyString ++ String cc sc))
    with [String cc ((((sc ++ ")") ++ ")") ++ "=") ++ "1")].
  change (em_walk
            ("SELECT" :: "*" :: "FROM" :: "ivoa.ObsCore" :: "WHERE"
             :: "intersects(s_region," :: "circle('',"
             :: String ca (sa ++ ",") :: String cb (sb ++ ",")
             :: [String cc ((((sc ++ ")") ++ ")") ++ "=") ++ "1")]) NoClause)
    with (em_walk (String ca (sa ++ ",") :: String cb (sb ++ ",")
                   :: [String cc ((((sc ++ ")") ++ ")") ++ "=") ++ "1")]) InWhere).
  now rewrite !em_walk_number.
Qed.

(** C7: in every statement of the notebook, a comparison of [em_min] or
    [em_max] sits in a WHERE clause and its literal is a wavelength in
    metres (the J and H band values 1.265E-6 and 1.66E-6 of cell 31), free
    of the display factor; the factor 1E9 that shows nanometres multiplies
    the columns in the SELECT clause of cell 34 only. *)
Theorem spectral_constraints_in_metres :
  em_uses query_cell31
  = [ Constraint InWhere "em_min" "<" "1.265E-6";
      Constraint InWhere "em_max" ">" "1.265E-6";
      Constraint InWhere "em_min" "<" "1.66E-6";
      Constraint InWhere "em_max" ">" "1.66E-6" ]
  /\ em_uses query_cell34
     = [ Rescaled InSelect "em_min" "1E9"; Rescaled InSelect "em_max" "1E9" ]
  /\ forall (ra dec : float) (q : string) (u : em_use),
       In q (notebook_queries ra dec) -> In u (em_uses q) ->
       unit_respecting u = true.
Proof.
  split; [vm_compute; reflexivity|]. split; [vm_compute; reflexivity|].
  intros ra dec q u Hq Hu. unfold notebook_queries in Hq. cbn [In] in Hq.
  destruct Hq as [<-|[<-|[<-|[<-|[<-|[<-|[<-|[<-|[<-|[]]]]]]]]]].
  - vm_compute in Hu. contradiction.
  - vm_compute in Hu. contradiction.
  - rewrite em_uses_coneSearch in Hu. contradiction.
  - vm_compute in Hu. contradiction.
  - vm_compute in Hu. contradiction.
  - vm_compute in Hu. contradiction.
  - vm_compute in Hu. destruct Hu as [<-|[<-|[<-|[<-|[]]]]]; vm_compute; reflexivity.
  - vm_compute in Hu. destruct Hu as [<-|[<-|[]]]; vm_compute; reflexivity.
  - vm_compute in Hu. contradiction.
Qed.

Lemma spectral_constraints_in_metres_witness :
  In query_cell31 (notebook_queries 185.5 10.0)
  /\ In (Constraint InWhere "em_min" "<" "1.265E-6") (em_uses query_cell31)
  /\ unit_respecting (Constraint InWhere "em_min" "<" "1.265E-6") = true.
Proof.
  assert (Hq : In query_cell31 (notebook_queries 185.5 10.0))
    by (unfold notebook_queries; cbn [In]; tauto).
  assert (Hu : In (Constraint InWhere "em_min" "<" "1.265E-6") (em_uses query_cell31))
    by (left; reflexivity).
  split; [exact Hq|]. split; [exact Hu|].
  exact (proj2 (proj2 spectral_constraints_in_metres) 185.5%float 10.0%float _ _ Hq Hu).
Defined.

(** ** CONTAINS and INTERSECTS in the statements of the notebook *)

(** No call of CONTAINS starts inside a converted number. *)
Lemma calls_from_number (s k : string) :
  all_chars number_char s = true ->
  calls_from "CONTAINS(" (s ++ k) = calls_from "CONTAINS(" k.
Proof.
  induction s as [|c s IH]; cbn [all_chars append]; intros H; [reflexivity|].
  apply andb_true_iff in H as [Hc Hs]. rewrite <- (IH Hs).
  generalize (s ++ k) as rest. intros rest.
  destruct c as [[] [] [] [] [] [] [] []]; first [discriminate Hc | reflexivity].
Qed.

Lemma calls_coneSearch (ra dec r : float) :
  all_calls "CONTAINS" (coneSearch ra dec r) = [].
Proof.
  assert (Hnum : forall x, all_chars number_char (format_f x) = true).
  { intros x. destruct (format_f_text x) as (c & s & -> & Hc & Hs).
    cbn [all_chars]. now rewrite (number_head_char c Hc), Hs. }
  pose proof (Hnum ra) as Ha. pose proof (Hnum dec) as Hb.
  pose proof (Hnum r) as Hc.
  unfold all_calls, coneSearch.
  set (A := format_f ra) in *. set (B := format_f dec) in *.
  set (C := format_f r) in *.
  change (calls_from ("CONTAINS" ++ "(")
            ("SELECT *" ++ LF ++ "FROM ivoa.ObsCore" ++ LF ++
             "WHERE intersects(s_region, circle('', "
             ++ A ++ ", " ++ B ++ ", " ++ C ++ "))=1" ++ LF))
    with (calls_from "CONTAINS(" (A ++ ", " ++ B ++ ", " ++ C ++ "))=1" ++ LF)).
  rewrite (calls_from_number A _ Ha).
  change (calls_from "CONTAINS(" (", " ++ B ++ ", " ++ C ++ "))=1" ++ LF))
    with (calls_from "CONTAINS(" (B ++ ", " ++ C ++ "))=1" ++ LF)).
  rewrite (calls_from_number B _ Hb).
  change (calls_from "CONTAINS(" (", " ++ C ++ "))=1" ++ LF))
    with (calls_from "CONTAINS(" (C ++ "))=1" ++ LF)).
  rewrite (calls_from_number C _ Hc).
  reflexivity.
Qed.




(** ** The searching cells *)

Section ClientProperties.

Import Client.

Variables (row error : Type).
Variable show_results : list row -> string.
Variable show_table : list row -> string.
Variable columns36 : row -> Display.value * Display.value * Display.value.
Variable AttributeError : error.

Let program : Type := prog row error (list row).
Let cells (ra dec : float) : list program :=
  operations show_results show_table columns36 AttributeError ra dec.

(** The loop of cell 36 over rows that decode: their lines, then what comes
    after them. *)
Lemma run_list_rows (t1 rest : list row) (k : program)
    (svc : service row error) (n : nat) :
  forallb (decodable columns36) t1 = true ->
  run (list_rows columns36 AttributeError (t1 ++ rest) k) svc n
  = ((shown columns36 t1
      ++ fst (run (list_rows columns36 AttributeError rest k) svc n))%list,
     snd (run (list_rows columns36 AttributeError rest k) svc n)).
Proof.
  induction t1 as [|r t1 IH]; cbn [forallb app list_rows shown]; intros H.
  - now destruct (run (list_rows columns36 AttributeError rest k) svc n).
  - apply andb_true_iff in H as [Hr Ht]. unfold decodable in Hr.
    destruct (row_line columns36 r) as [line|]; [|discriminate Hr].
    cbn [run]. now rewrite (IH Ht).
Qed.

(** The loop sends nothing. *)
Lemma list_rows_requests (t : list row) (x : list row)
    (svc : service row error) (n : nat) :
  requests (fst (run (list_rows columns36 AttributeError t (Ret x)) svc n)) = [].
Proof.
  induction t as [|r t IH]; cbn [list_rows]; [reflexivity|].
  destruct (row_line columns36 r) as [line|]; cbn [run]; [|reflexivity].
  destruct (run (list_rows columns36 AttributeError t (Ret x)) svc n) as [tr res].
  exact IH.
Qed.

(** C8: whatever the service answers, each searching cell sends exactly one
    request; when the answer is a table without rows the cell ends normally
    with that empty table, and when the answer is an exception the cell ends
    with that same exception, no second request made. *)
Theorem search_is_single_pass_through
    (ra dec : float) (svc : service row error) (n : nat) (op : program) :
  In op (cells ra dec) ->
  exists q m,
    first_request op = Some (q, m)
    /\ requests (fst (run op svc n)) = [(q, m)]
    /\ (svc n q m = Rows [] -> snd (run op svc n) = inl [])
    /\ (forall e, svc n q m = Failure e -> snd (run op svc n) = inr e).
Proof.
  unfold cells, operations. cbn [In].
  intros [<-|[<-|[<-|[<-|[<-|[<-|[<-|[<-|[]]]]]]]]];
    (eexists; eexists; split; [reflexivity|]);
    unfold cell7, cell18, cell23, cell26, cell29, cell31, cell34, cell36,
      search_and_show;
    cbn [run];
    match goal with
    | |- context [svc n ?q ?m] => destruct (svc n q m) as [t|e] eqn:E
    end;
    cbn [run fst snd requests];
    try (split; [reflexivity|]; split; intros; congruence).
  destruct (run (list_rows columns36 AttributeError t (Ret t)) svc (S n))
    as [tr res] eqn:R.
  pose proof (list_rows_requests t t svc (S n)) as Hreq.
  rewrite R in Hreq. cbn [fst snd requests] in *. rewrite Hreq.
  split; [reflexivity|]. split; [|intros e He; discriminate He].
  intros Ht. injection Ht as ->. cbn [list_rows run] in R.
  now injection R as _ <-.
Qed.

End ClientProperties.

Lemma search_is_single_pass_through_witness :
  let svc : Client.service nat string := fun _ _ _ => Client.Rows [] in
  let op : Client.prog nat string (list nat) :=
    Client.cell18 (coneSearch 185.583 13.093 sr) in
  In op (Client.operations (fun _ => EmptyString) (fun _ => EmptyString)
           (fun _ => (Display.Bytes EmptyString, Display.Bytes EmptyString,
                      Display.Bytes EmptyString))
           "AttributeError" 185.583 13.093)
  /\ Client.requests (fst (Client.run op svc 0))
     = [(coneSearch 185.583 13.093 sr, Some 1000%N)]
  /\ snd (Client.run op svc 0) = inl [].
Proof.
  intros svc op.
  assert (Hin : In op (Client.operations (fun _ => EmptyString)
                         (fun _ => EmptyString)
                         (fun _ => (Display.Bytes EmptyString,
                                    Display.Bytes EmptyString,
                                    Display.Bytes EmptyString))
                         "AttributeError" 185.583 13.093))
    by (right; left; reflexivity).
  split; [exact Hin|].
  destruct (search_is_single_pass_through nat string (fun _ => EmptyString)
              (fun _ => EmptyString)
              (fun _ => (Display.Bytes EmptyString, Display.Bytes EmptyString,
                         Display.Bytes EmptyString))
              "AttributeError"
              185.583%float 13.093%float svc 0 op Hin)
    as (q & m & Hfirst & Hreq & Hempty & _).
  unfold op in Hfirst. cbn [Client.first_request Client.cell18] in Hfirst.
  inversion Hfirst; subst q m.
  split; [exact Hreq | exact (Hempty eq_refl)].
Defined.

(** ** Numbers written and read back *)

Import Rounding.

Lemma digit_char_val (d : Z) :
  (0 <= d < 10)%Z ->
  is_digit (digit_char d) = true /\ digit_val (digit_char d) = d.
Proof.
  intros H.
  assert (Hd : d = 0%Z \/ d = 1%Z \/ d = 2%Z \/ d = 3%Z \/ d = 4%Z \/ d = 5%Z
               \/ d = 6%Z \/ d = 7%Z \/ d = 8%Z \/ d = 9%Z) by lia.
  repeat (destruct Hd as [-> | Hd]; [split; reflexivity|]).
  subst d. split; reflexivity.
Qed.

(** Two readings of the same text agree when their accumulators do. *)
Ltac same_reading :=
  match goal with
  | |- read_digits ?s ?x ?i = read_digits ?s ?y ?j =>
      replace j with i by lia; replace y with x; [reflexivity|]
  end.

Lemma read_digit (d : Z) (s : string) (a : Z) (k : nat) :
  (0 <= d < 10)%Z ->
  read_digits (String (digit_char d) s) a k = read_digits s (a * 10 + d)%Z (S k).
Proof.
  intros H. destruct (digit_char_val d H) as [H1 H2].
  cbn [read_digits]. now rewrite H1, H2.
Qed.

(** The digits written for [n] are read back as [n]. *)
Lemma read_digits_aux (fuel : nat) :
  forall n acc rest a k,
    (0 <= n < 2 ^ Z.of_nat (S fuel))%Z ->
    exists d,
      read_digits (digits_aux (S fuel) n acc ++ rest) a k
      = read_digits (acc ++ rest) (a * 10 ^ Z.of_nat (S d) + n)%Z (k + S d).
Proof.
  induction fuel as [|fuel IH]; intros n acc rest a k Hn.
  - cbn [digits_aux].
    assert (Hlt : (n <? 10)%Z = true) by (apply Z.ltb_lt; cbn in Hn; lia).
    rewrite Hlt. exists O. cbn [append].
    rewrite Z.mod_small by (cbn in Hn; lia).
    rewrite read_digit by (cbn in Hn; lia).
    same_reading. change (Z.of_nat 1) with 1%Z. lia.
  - change (digits_aux (S (S fuel)) n acc)
      with (if (n <? 10)%Z then String (digit_char (n mod 10)) acc
            else digits_aux (S fuel) (n / 10)%Z (String (digit_char (n mod 10)) acc)).
    assert (Hm : (0 <= n mod 10 < 10)%Z) by (apply Z.mod_pos_bound; lia).
    destruct (n <? 10)%Z eqn:Hlt.
    + apply Z.ltb_lt in Hlt. exists O. cbn [append].
      rewrite Z.mod_small by lia. rewrite read_digit by lia.
      same_reading. change (Z.of_nat 1) with 1%Z. lia.
    + apply Z.ltb_ge in Hlt.
      assert (Hdiv : (0 <= n / 10 < 2 ^ Z.of_nat (S fuel))%Z).
      { split; [apply Z.div_pos; lia|].
        apply Z.div_lt_upper_bound; [lia|].
        replace (Z.of_nat (S (S fuel))) with (Z.succ (Z.of_nat (S fuel))) in Hn by lia.
        rewrite Z.pow_succ_r in Hn by lia. lia. }
      destruct (IH (n / 10)%Z (String (digit_char (n mod 10)) acc) rest a k Hdiv)
        as [d Hd].
      exists (S d). rewrite Hd. cbn [append]. rewrite read_digit by exact Hm.
      same_reading.
      replace (Z.of_nat (S (S d))) with (Z.succ (Z.of_nat (S d))) by lia.
      rewrite Z.pow_succ_r by lia.
      pose proof (Z.div_mod n 10 ltac:(lia)) as E. lia.
Qed.

Lemma read_decimal (n : Z) (rest : string) (k : nat) :
  (0 <= n)%Z ->
  exists d, read_digits (decimal n ++ rest) 0%Z k = read_digits rest n (k + S d).
Proof.
  intros Hn. unfold decimal.
  assert (Hb : (0 <= n < 2 ^ Z.of_nat (S (Z.to_nat (Z.log2 n))))%Z).
  { split; [exact Hn|].
    pose proof (Z.log2_nonneg n) as Hl.
    replace (Z.of_nat (S (Z.to_nat (Z.log2 n)))) with (Z.succ (Z.log2 n)) by lia.
    destruct (Z.eq_dec n 0) as [->|Hz]; [reflexivity|].
    apply Z.log2_spec. lia. }
  destruct (read_digits_aux _ n EmptyString rest 0%Z k Hb) as [d Hd].
  exists d. rewrite Hd. cbn [append]. same_reading. lia.
Qed.

(** The six digits after the point are read back as the number below a
    million they stand for. *)
Lemma read_frac6 (r : Z) (rest : string) (a : Z) (k : nat) :
  (0 <= r < 1000000)%Z ->
  read_digits (frac6 r ++ rest) a k = read_digits rest (a * 1000000 + r)%Z (k + 6).
Proof.
  intros Hr. unfold frac6. cbn [append].
  rewrite !read_digit by (apply Z.mod_pos_bound; lia).
  same_reading.
  pose proof (Z.div_mod r 100000 ltac:(lia)) as E5.
  pose proof (Z.div_mod r 10000 ltac:(lia)) as E4.
  pose proof (Z.div_mod r 1000 ltac:(lia)) as E3.
  pose proof (Z.div_mod r 100 ltac:(lia)) as E2.
  pose proof (Z.div_mod r 10 ltac:(lia)) as E1.
  Z.to_euclidean_division_equations. lia.
Qed.

Lemma digit_not_sign (c : ascii) :
  is_digit c = true ->
  Ascii.eqb c "-" = false /\ Ascii.eqb c "+" = false /\ Ascii.eqb c "." = false.
Proof.
  destruct c as [[] [] [] [] [] [] [] []]; intros H;
    first [discriminate H | repeat split; reflexivity].
Qed.

(** A number written with six decimals is read back as that many
    millionths. *)
Lemma parse_fixed6 (s : bool) (q : Z) :
  (0 <= q)%Z ->
  parse_decimal (sign_text s ++ fixed6 q)
  = Some (scale10 (if s then (- q)%Z else q) (-6)).
Proof.
  intros Hq.
  assert (Hip : (0 <= q / 1000000)%Z) by (apply Z.div_pos; lia).
  assert (Hfp : (0 <= q mod 1000000 < 1000000)%Z) by (apply Z.mod_pos_bound; lia).
  assert (Hsign : read_sign (sign_text s ++ fixed6 q) = (s, fixed6 q)).
  { destruct s; [reflexivity|]. cbn [sign_text append]. unfold fixed6.
    destruct (decimal_digits (q / 1000000)) as [Hd (c & r & E)].
    rewrite E in *. cbn [all_chars] in Hd. apply andb_true_iff in Hd as [Hc _].
    destruct (digit_not_sign c Hc) as (H1 & H2 & _).
    cbn [append read_sign]. now rewrite H1, H2. }
  destruct (read_decimal (q / 1000000) ("." ++ frac6 (q mod 1000000)) 0 Hip)
    as [d Hd].
  unfold parse_decimal. rewrite Hsign. unfold fixed6. rewrite Hd.
  change (read_digits ("." ++ frac6 (q mod 1000000)) (q / 1000000)%Z (0 + S d))
    with (q / 1000000, S d, String "." (frac6 (q mod 1000000)))%Z.
  cbv beta iota. change (Ascii.eqb "." ".") with true. cbv iota.
  rewrite <- (append_nil_r (frac6 (q mod 1000000))).
  rewrite (read_frac6 _ EmptyString _ 0 Hfp).
  cbn [read_digits Nat.add read_exponent]. cbv beta iota.
  replace (q / 1000000 * 1000000 + q mod 1000000)%Z with q
    by (pose proof (Z.div_mod q 1000000 ltac:(lia)); lia).
  reflexivity.
Qed.

(** Rounding to the sixth decimal moves a value by half a unit at most. *)
Lemma scaled_round_bound (m : positive) (e : Z) :
  (0 <= scaled_round m e)%Z
  /\ ((0 <= e)%Z -> scaled_round m e = (Z.pos m * 2 ^ e * 1000000)%Z)
  /\ ((e < 0)%Z ->
      (2 * Z.abs (scaled_round m e * 2 ^ (- e) - Z.pos m * 1000000) <= 2 ^ (- e))%Z
      /\ ((Z.pos m * 1000000) mod 2 ^ (- e) = 0
          <-> scaled_round m e * 2 ^ (- e) = Z.pos m * 1000000)%Z).
Proof.
  unfold scaled_round.
  destruct (0 <=? e)%Z eqn:He.
  - apply Z.leb_le in He.
    assert (0 < 2 ^ e)%Z by (apply Z.pow_pos_nonneg; lia).
    split; [nia|]. split; [reflexivity|]. lia.
  - apply Z.leb_gt in He.
    assert (Hden : (0 < 2 ^ (- e))%Z) by (apply Z.pow_pos_nonneg; lia).
    set (den := (2 ^ (- e))%Z) in *. set (num := (Z.pos m * 1000000)%Z).
    pose proof (Z.div_mod num den ltac:(lia)) as E.
    pose proof (Z.mod_pos_bound num den Hden) as Hr.
    assert (Hq : (0 <= num / den)%Z) by (apply Z.div_pos; lia).
    set (qq := (num / den)%Z) in *. set (r := (num mod den)%Z) in *.
    cbv zeta.
    destruct (den <? 2 * r)%Z eqn:H1; [apply Z.ltb_lt in H1 | apply Z.ltb_ge in H1].
    + split; [lia|]. split; [lia|]. intros _. split; [nia|]. split; nia.
    + destruct (2 * r =? den)%Z eqn:H2;
        [apply Z.eqb_eq in H2 | apply Z.eqb_neq in H2].
      * destruct (Z.even qq); (split; [lia|]); (split; [lia|]); intros _;
          (split; [nia|]); split; nia.
      * split; [lia|]. split; [lia|]. intros _. split; [nia|]. split; nia.
Qed.

(** The value a finite number stands for and the value of its six-decimal
    text, as fractions not yet reduced. *)
Lemma finite_text_and_value (s : bool) (m : positive) (e : Z) :
  let q := scaled_round m e in
  let text := Qmake (if s then (- q)%Z else q) 1000000 in
  let mag := if (0 <=? e)%Z then inject_Z (Z.pos m * 2 ^ e)
             else Qmake (Z.pos m) (Z.to_pos (2 ^ (- e))) in
  let value := if s then Qopp mag else mag in
  Qabs (text - value) <= half_ulp6
  /\ (text == value <->
      (if (0 <=? e)%Z then true
       else ((Z.pos m * 1000000) mod 2 ^ (- e) =? 0)%Z) = true).
Proof.
  intros q text mag value.
  destruct (scaled_round_bound m e) as (Hq & Hpos & Hneg). fold q in Hq, Hpos, Hneg.
  unfold text, value, mag. clear text value mag.
  destruct (0 <=? e)%Z eqn:He.
  - apply Z.leb_le in He. specialize (Hpos He).
    split.
    + apply Qabs_Qle_condition.
      destruct s; unfold Qle, Qminus, Qplus, Qopp, half_ulp6, inject_Z;
        cbn [Qnum Qden]; split; lia.
    + split; [reflexivity|]. intros _.
      destruct s; unfold Qeq, Qopp, inject_Z; cbn [Qnum Qden]; lia.
  - apply Z.leb_gt in He. destruct (Hneg He) as [Hb Hiff].
    assert (Hden : (0 < 2 ^ (- e))%Z) by (apply Z.pow_pos_nonneg; lia).
    split.
    + apply Qabs_Qle_condition.
      destruct s; unfold Qle, Qminus, Qplus, Qopp, half_ulp6;
        cbn [Qnum Qden]; rewrite ?Pos2Z.inj_mul, ?Z2Pos.id by exact Hden;
        split; lia.
    + rewrite Z.eqb_eq, Hiff.
      destruct s; unfold Qeq, Qopp; cbn [Qnum Qden];
        rewrite ?Z2Pos.id by exact Hden; split; lia.
Qed.

Lemma parse_format_f (x : float) :
  finite x = true ->
  exists v w,
    parse_decimal (format_f x) = Some v /\ float_value x = Some w
    /\ Qabs (v - w) <= half_ulp6.
Proof.
  unfold finite, format_f, float_value.
  destruct (Prim2SF x) as [s|s| |s m e]; try discriminate; intros _.
  - rewrite (parse_fixed6 s 0 ltac:(lia)).
    eexists; eexists. split; [reflexivity|]. split; [reflexivity|].
    destruct s; vm_compute; discriminate.
  - destruct (scaled_round_bound m e) as (Hq & _).
    rewrite (parse_fixed6 s _ Hq).
    eexists; eexists. split; [reflexivity|]. split; [reflexivity|].
    unfold scale10. change (0 <=? -6)%Z with false. cbv iota.
    change (Z.to_pos (10 ^ (- -6))) with 1000000%positive.
    rewrite !Qred_correct.
    exact (proj1 (finite_text_and_value s m e)).
Qed.

(** X1: a finite number of a statement is read back within half a unit of
    the sixth decimal of its exact value. *)
Theorem format_f_read_back (x : float) :
  finite x = true ->
  exists v w,
    parse_decimal (format_f x) = Some v /\ float_value x = Some w
    /\ Qabs (v - w) <= half_ulp6.
Proof. exact (parse_format_f x). Qed.

Lemma format_f_read_back_witness :
  finite sr = true
  /\ exists v w,
       parse_decimal (format_f sr) = Some v /\ float_value sr = Some w
       /\ Qabs (v - w) <= half_ulp6.
Proof.
  split; [reflexivity|]. exact (format_f_read_back sr eq_refl).
Defined.

(** X2: the text of a finite number is read back as the number itself
    exactly when the number has at most six decimals. *)
Theorem format_f_exact_iff (x : float) :
  finite x = true ->
  (parse_decimal (format_f x) = float_value x <-> six_decimals x = true).
Proof.
  unfold finite, six_decimals, format_f, float_value.
  destruct (Prim2SF x) as [s|s| |s m e]; try discriminate; intros _.
  - rewrite (parse_fixed6 s 0 ltac:(lia)).
    split; [reflexivity|]. intros _. destruct s; reflexivity.
  - destruct (scaled_round_bound m e) as (Hq & _).
    rewrite (parse_fixed6 s _ Hq).
    unfold scale10. change (0 <=? -6)%Z with false. cbv iota.
    change (Z.to_pos (10 ^ (- -6))) with 1000000%positive.
    rewrite <- (proj2 (finite_text_and_value s m e)).
    rewrite <- Qred_eq_iff. split; [intros H; now injection H | intros ->; reflexivity].
Qed.

Lemma format_f_exact_iff_witness :
  finite 185.5 = true
  /\ (parse_decimal (format_f 185.5) = float_value 185.5
      <-> six_decimals 185.5 = true)
  /\ six_decimals 185.5 = true /\ six_decimals sr = false.
Proof.
  split; [reflexivity|].
  split; [exact (format_f_exact_iff 185.5%float eq_refl)|].
  split; reflexivity.
Defined.

(** X3: an infinity or a NaN is written as [inf], [-inf] or [nan], which no
    reader takes for a number; a finite number always is. *)
Theorem format_f_readable_iff_finite (x : float) :
  (exists v, parse_decimal (format_f x) = Some v) <-> finite x = true.
Proof.
  split.
  - unfold finite, format_f.
    destruct (Prim2SF x) as [s|s| |s m e]; try reflexivity.
    + destruct s; intros [v H]; vm_compute in H; discriminate H.
    + intros [v H]; vm_compute in H; discriminate H.
  - intros H. destruct (parse_format_f x H) as (v & _ & Hv & _).
    now exists v.
Qed.

(** ** The cone search at every position *)

Lemma number_char_plain (c : ascii) : number_char c = true -> plain_char c = true.
Proof. destruct c as [[] [] [] [] [] [] [] []]; vm_compute; congruence. Qed.

(** A converted number holds no apostrophe, parenthesis, comma or blank. *)
Lemma format_f_plain (x : float) : all_chars plain_char (format_f x) = true.
Proof.
  destruct (format_f_text x) as (c & s & -> & Hc & Hs).
  cbn [all_chars].
  rewrite (number_char_plain c (number_head_char c Hc)).
  exact (all_chars_impl _ _ s number_char_plain Hs).
Qed.

Lemma plain_text_inner (s : string) :
  all_chars plain_char s = true -> all_chars inner_char s = true.
Proof. apply all_chars_impl, plain_inner. Qed.

Lemma circle_operands (ra dec r : float) :
  call_args "circle" (coneSearch ra dec r)
  = Some ["''"; format_f ra; format_f dec; format_f r].
Proof.
  pose proof (format_f_plain ra) as Ha.
  pose proof (format_f_plain dec) as Hb.
  pose proof (format_f_plain r) as Hc.
  unfold call_args, coneSearch.
  set (A := format_f ra) in *. set (B := format_f dec) in *.
  set (C := format_f r) in *.
  change (find_after ("circle" ++ "(")
            ("SELECT *" ++ LF ++ "FROM ivoa.ObsCore" ++ LF ++
             "WHERE intersects(s_region, circle('', "
             ++ A ++ ", " ++ B ++ ", " ++ C ++ "))=1" ++ LF))
    with (Some (String apostrophe (String apostrophe (String "," (String " "
            (A ++ String "," (String " "
               (B ++ String "," (String " "
                  (C ++ String ")" (")=1" ++ LF))))))))))).
  cbv beta iota. unfold scan_start.
  rewrite scan_quote_open, scan_quote_close, scan_comma_top, scan_blank_skip.
  rewrite scan_app, (scan_plain A Ha), scan_comma_top, scan_blank_skip.
  rewrite scan_app, (scan_plain B Hb), scan_comma_top, scan_blank_skip.
  rewrite scan_app, (scan_plain C Hc), scan_close_top.
  reflexivity.
Qed.

Lemma intersects_operands (ra dec r : float) :
  call_args "intersects" (coneSearch ra dec r)
  = Some ["s_region";
          "circle('', " ++ format_f ra ++ ", " ++ format_f dec ++ ", "
            ++ format_f r ++ ")"].
Proof.
  pose proof (plain_text_inner _ (format_f_plain ra)) as Ha.
  pose proof (plain_text_inner _ (format_f_plain dec)) as Hb.
  pose proof (plain_text_inner _ (format_f_plain r)) as Hc.
  unfold call_args, coneSearch.
  set (A := format_f ra) in *. set (B := format_f dec) in *.
  set (C := format_f r) in *.
  change (find_after ("intersects" ++ "(")
            ("SELECT *" ++ LF ++ "FROM ivoa.ObsCore" ++ LF ++
             "WHERE intersects(s_region, circle('', "
             ++ A ++ ", " ++ B ++ ", " ++ C ++ "))=1" ++ LF))
    with (Some ("s_region" ++ String "," (String " "
            ("circle('', " ++ A ++ ", " ++ B ++ ", " ++ C ++ "))=1" ++ LF)))).
  cbv beta iota. unfold scan_start.
  replace ("circle('', " ++ A ++ ", " ++ B ++ ", " ++ C ++ "))=1" ++ LF)
    with (("circle" ++ String "(" (String apostrophe
             (EmptyString ++ String apostrophe
                ((", " ++ A ++ ", " ++ B ++ ", " ++ C) ++ ")"))))
          ++ String ")" ("=1" ++ LF))
    by (cbn [append]; normalise_append; reflexivity).
  rewrite scan_app, (scan_plain "s_region" eq_refl).
  change (EmptyString ++ "s_region") with "s_region".
  rewrite scan_comma_top, scan_blank_skip, scan_app.
  rewrite (scan_call "circle" EmptyString (", " ++ A ++ ", " ++ B ++ ", " ++ C)
             ["s_region"] eq_refl eq_refl).
  - rewrite scan_close_top. cbn [rev app]. do 2 f_equal. f_equal.
    cbn [append]. normalise_append. reflexivity.
  - change (", " ++ A ++ ", " ++ B ++ ", " ++ C)
      with (", " ++ (A ++ (", " ++ (B ++ (", " ++ C))))).
    rewrite !all_chars_app. now rewrite Ha, Hb, Hc.
Qed.

(** X4: at every position and radius, also an infinite or undefined one, the
    cone search has [s_region] as the first operand of [intersects] and the
    circle as the second, and the circle has the empty frame, the right
    ascension, the declination and the radius as its operands, in this
    order. *)
Theorem coneSearch_operands (ra dec r : float) :
  call_args "intersects" (coneSearch ra dec r)
  = Some ["s_region";
          "circle('', " ++ format_f ra ++ ", " ++ format_f dec ++ ", "
            ++ format_f r ++ ")"]
  /\ call_args "circle" (coneSearch ra dec r)
     = Some ["''"; format_f ra; format_f dec; format_f r].
Proof. split; [apply intersects_operands | apply circle_operands]. Qed.

(** X5: the numbers read back from the cone search built at a finite
    position and radius are within half a unit of the sixth decimal of the
    numbers given. *)
Theorem coneSearch_read_back (ra dec r : float) :
  finite ra = true -> finite dec = true -> finite r = true ->
  exists v1 v2 v3 w1 w2 w3,
    cone_literals (coneSearch ra dec r) = Some [v1; v2; v3]
    /\ float_values [ra; dec; r] = Some [w1; w2; w3]
    /\ Qabs (v1 - w1) <= half_ulp6
    /\ Qabs (v2 - w2) <= half_ulp6
    /\ Qabs (v3 - w3) <= half_ulp6.
Proof.
  intros Ha Hb Hc.
  destruct (parse_format_f ra Ha) as (v1 & w1 & P1 & F1 & B1).
  destruct (parse_format_f dec Hb) as (v2 & w2 & P2 & F2 & B2).
  destruct (parse_format_f r Hc) as (v3 & w3 & P3 & F3 & B3).
  exists v1, v2, v3, w1, w2, w3.
  split; [|split; [|now repeat split]].
  - unfold cone_literals. rewrite circle_operands.
    cbn [parse_all]. now rewrite P1, P2, P3.
  - cbn [float_values]. now rewrite F1, F2, F3.
Qed.

Lemma coneSearch_read_back_witness :
  finite 185.583 = true /\ finite 13.093 = true /\ finite sr = true
  /\ exists v1 v2 v3 w1 w2 w3,
       cone_literals (coneSearch 185.583 13.093 sr) = Some [v1; v2; v3]
       /\ float_values [185.583; 13.093; sr]%float = Some [w1; w2; w3]
       /\ Qabs (v1 - w1) <= half_ulp6
       /\ Qabs (v2 - w2) <= half_ulp6
       /\ Qabs (v3 - w3) <= half_ulp6.
Proof.
  repeat (split; [reflexivity|]).
  exact (coneSearch_read_back 185.583%float 13.093%float sr eq_refl eq_refl eq_refl).
Defined.

(** ** Look-up statements and their arguments *)

Lemma append_quote_inj (a b : string) :
  a ++ "'" = b ++ "'" -> a = b.
Proof.
  revert b. induction a as [|x a IH]; intros [|y b] H; cbn [append] in H.
  - reflexivity.
  - injection H as _ H. destruct b; discriminate H.
  - injection H as _ H. destruct a; discriminate H.
  - injection H as -> H. now rewrite (IH b H).
Qed.

(** X6: two identifiers, or two file names, never share a statement. *)
Theorem lookup_statements_injective (a b : string) :
  (byIdentifier a = byIdentifier b -> a = b)
  /\ (byPublisherDid a = byPublisherDid b -> a = b)
  /\ (byOriginalFilename a = byOriginalFilename b -> a = b).
Proof.
  repeat split; intros H.
  - apply append_quote_inj.
    apply (f_equal (find_after "WHERE dp_id = '")) in H.
    change (Some (a ++ "'") = Some (b ++ "'")) in H. now injection H.
  - apply append_quote_inj.
    apply (f_equal (find_after "WHERE obs_publisher_did = 'ivo://eso.org/ID?")) in H.
    change (Some (a ++ "'") = Some (b ++ "'")) in H. now injection H.
  - apply append_quote_inj.
    apply (f_equal (find_after "WHERE obs_creator_did = 'ivo://eso.org/origfile?")) in H.
    change (Some (a ++ "'") = Some (b ++ "'")) in H. now injection H.
Qed.

Lemma lookup_statements_injective_witness :
  byIdentifier dp_id_cell5 = byIdentifier "ADP.2013-12-10T16:12:17.697"
  /\ dp_id_cell5 = "ADP.2013-12-10T16:12:17.697".
Proof.
  split; [reflexivity|].
  exact (proj1 (lookup_statements_injective dp_id_cell5 "ADP.2013-12-10T16:12:17.697")
           eq_refl).
Defined.

(** A text with an apostrophe ends its literal early and leaves text behind
    it. *)
Lemma take_literal_quoted (s k : string) :
  quote_free s = false ->
  exists l c r, take_literal (s ++ String apostrophe k) = Some (l, String c r).
Proof.
  induction s as [|a s IH]; cbn [quote_free all_chars append take_literal];
    intros H; [discriminate H|].
  destruct (is_apostrophe a) eqn:Ha.
  - exists EmptyString. destruct s as [|b s]; cbn [append]; eauto.
  - cbn [negb andb] in H. destruct (IH H) as (l & c & r & ->). eauto.
Qed.

(** X7: the statement of cell 5 is a single equality on [dp_id] exactly when
    the identifier holds no apostrophe, and the literal of the equality is
    then the identifier; nothing is escaped. *)
Theorem byIdentifier_literal (id : string) :
  parse_equality (byIdentifier id)
  = if quote_free id then Some ("dp_id", id) else None.
Proof.
  rewrite parse_byIdentifier.
  change (id ++ "'") with (id ++ String apostrophe EmptyString).
  destruct (quote_free id) eqn:H.
  - now rewrite (take_literal_quote_free id EmptyString H).
  - destruct (take_literal_quoted id EmptyString H) as (l & c & r & ->).
    reflexivity.
Qed.

Lemma quote_free_ivorn (prefix f : string) :
  quote_free prefix = true -> quote_free f = true -> quote_free (prefix ++ f) = true.
Proof. unfold quote_free. intros Hp Hf. now rewrite all_chars_app, Hp, Hf. Qed.

(** X8: for a file name without apostrophe the statement of cell 12 has one
    WHERE clause, an equality of [obs_creator_did] with
    [ivo://eso.org/origfile?] followed by the file name unchanged; over a
    table it selects the rows whose [obs_creator_did] is that text. *)
Theorem byOriginalFilename_statement (f : string) (t : list row) :
  quote_free f = true ->
  where_clauses (byOriginalFilename f) = 1%nat
  /\ parse_equality (byOriginalFilename f)
     = Some ("obs_creator_did", "ivo://eso.org/origfile?" ++ f)
  /\ select (byOriginalFilename f) t
     = Some (filter (matches "obs_creator_did" ("ivo://eso.org/origfile?" ++ f)) t).
Proof.
  intros Hf.
  assert (Hi : quote_free ("ivo://eso.org/origfile?" ++ f) = true)
    by (apply quote_free_ivorn; [reflexivity | exact Hf]).
  assert (Hp : parse_equality (byOriginalFilename f)
               = Some ("obs_creator_did", "ivo://eso.org/origfile?" ++ f)).
  { change (parse_equality (byOriginalFilename f))
      with (match take_literal (("ivo://eso.org/origfile?" ++ f)
                                  ++ String apostrophe EmptyString) with
            | Some (l, EmptyString) => Some ("obs_creator_did", l)
            | _ => None
            end).
    now rewrite (take_literal_quote_free _ EmptyString Hi). }
  split; [|split; [exact Hp|]].
  - unfold where_clauses.
    change (byOriginalFilename f) with
      (("SELECT *" ++ LF ++ "FROM ivoa.ObsCore" ++ LF ++ "WHERE obs_creator_did = '")
         ++ (("ivo://eso.org/origfile?" ++ f) ++ "'")).
    rewrite lex_app.
    change (lex ("SELECT *" ++ LF ++ "FROM ivoa.ObsCore" ++ LF
                   ++ "WHERE obs_creator_did = '") (Lex false EmptyString 0))
      with (Lex true EmptyString 1).
    rewrite (lex_literal _ "'" EmptyString 1 Hi). reflexivity.
  - unfold select. now rewrite Hp.
Qed.

Lemma byOriginalFilename_statement_witness :
  quote_free origfile_cell12 = true
  /\ where_clauses (byOriginalFilename origfile_cell12) = 1%nat
  /\ parse_equality (byOriginalFilename origfile_cell12)
     = Some ("obs_creator_did", "ivo://eso.org/origfile?" ++ origfile_cell12).
Proof.
  split; [reflexivity|].
  destruct (byOriginalFilename_statement origfile_cell12 [] eq_refl) as (H1 & H2 & _).
  split; [exact H1 | exact H2].
Defined.

(** ** The cells that show a result *)

Import Display.

Example heading_cell36 :
  line36 "column_name" "unit" "UCD"
  = "column_name          " ++ TAB ++ " unit" ++ TAB ++ "UCD".
Proof. reflexivity. Qed.

Lemma cell9_first_row (colnames : list string) (r : row) (res : list row) :
  cell9 colnames (r :: res) = cell9 colnames [r].
Proof.
  induction colnames as [|c cs IH]; cbn [cell9]; [reflexivity|].
  destruct (column c r); [now rewrite IH | reflexivity].
Qed.

Lemma cell9_lines (colnames : list string) (r : row) (res : list row) :
  (forall c, In c colnames -> column c r <> None) ->
  snd (cell9 colnames (r :: res)) = Done
  /\ Forall2 (fun c line => exists v, column c r = Some v /\ line = line9 c v)
       colnames (fst (cell9 colnames (r :: res))).
Proof.
  induction colnames as [|c cs IH]; cbn [cell9]; intros H.
  - split; [reflexivity | constructor].
  - destruct (column c r) as [v|] eqn:E.
    + destruct IH as [Ho Hl]; [intros c' Hc'; apply H; now right|].
      destruct (cell9 cs (r :: res)) as [ls o]. cbn [fst snd] in *.
      split; [exact Ho|]. constructor; [now exists v | exact Hl].
    + exfalso. apply (H c); [now left | exact E].
Qed.

(** X10: cell 9 shows the first row only, one line for each column in the
    order of the columns; on a result without rows it raises IndexError at
    the first column and shows nothing, and it ends quietly only when there
    is no column at all. *)
Theorem cell9_behaviour (colnames : list string) (res : list row) :
  (res = [] ->
   cell9 colnames res = ([], match colnames with [] => Done | _ :: _ => IndexError end))
  /\ (forall r res',
        res = r :: res' ->
        (forall c, In c colnames -> column c r <> None) ->
        cell9 colnames res = cell9 colnames [r]
        /\ snd (cell9 colnames res) = Done
        /\ Forall2 (fun c line => exists v, column c r = Some v /\ line = line9 c v)
             colnames (fst (cell9 colnames res))).
Proof.
  split.
  - intros ->. destruct colnames; reflexivity.
  - intros r res' -> H. split; [apply cell9_first_row|].
    now apply cell9_lines.
Qed.

Lemma cell9_behaviour_witness :
  let r := [("dp_id", "ADP.2013-12-10T16:12:17.697"); ("dataproduct_type", "spectrum")] in
  (forall c, In c ["dp_id"; "dataproduct_type"] -> column c r <> None)
  /\ cell9 ["dp_id"; "dataproduct_type"] [r; r]
     = cell9 ["dp_id"; "dataproduct_type"] [r]
  /\ snd (cell9 ["dp_id"; "dataproduct_type"] [r; r]) = Done
  /\ cell9 ["dp_id"; "dataproduct_type"] [] = ([], IndexError).
Proof.
  intro r.
  assert (H : forall c, In c ["dp_id"; "dataproduct_type"] -> column c r <> None).
  { intros c [<-|[<-|[]]]; discriminate. }
  destruct (cell9_behaviour ["dp_id"; "dataproduct_type"] [r; r]) as [_ H2].
  destruct (H2 r [r] eq_refl H) as (E1 & E2 & _).
  destruct (cell9_behaviour ["dp_id"; "dataproduct_type"] []) as [H1 _].
  split; [exact H|]. split; [exact E1|]. split; [exact E2 | exact (H1 eq_refl)].
Defined.

(** X11: an identifier that no dataset of the table carries gives an empty
    result, on which cell 9 raises IndexError instead of showing an empty
    listing. *)
Theorem unknown_identifier_listing
    (id : string) (t : list row) (colnames : list string) :
  quote_free id = true ->
  forallb (fun r => negb (matches "dp_id" id r)) t = true ->
  colnames <> [] ->
  select (byIdentifier id) t = Some []
  /\ cell9 colnames [] = ([], IndexError).
Proof.
  intros Hid Ht Hc. split.
  - unfold select. rewrite parse_byIdentifier.
    change (id ++ "'") with (id ++ String apostrophe EmptyString).
    rewrite (take_literal_quote_free id EmptyString Hid). f_equal.
    induction t as [|r t IH]; cbn [filter forallb] in *; [reflexivity|].
    apply andb_true_iff in Ht as [Hr Ht]. apply negb_true_iff in Hr.
    rewrite Hr. now apply IH.
  - destruct colnames; [now elim Hc | reflexivity].
Qed.

Lemma unknown_identifier_listing_witness :
  let t := [ [("dp_id", "ADP.2017-09-14T08:39:35.649")] ] in
  quote_free dp_id_cell5 = true
  /\ forallb (fun r => negb (matches "dp_id" dp_id_cell5 r)) t = true
  /\ ["dp_id"] <> []
  /\ select (byIdentifier dp_id_cell5) t = Some []
  /\ cell9 ["dp_id"] [] = ([], IndexError).
Proof.
  intro t.
  assert (Hc : ["dp_id"] <> []) by discriminate.
  split; [reflexivity|]. split; [reflexivity|]. split; [exact Hc|].
  exact (unknown_identifier_listing dp_id_cell5 t ["dp_id"] eq_refl eq_refl Hc).
Defined.

(** *** Counting by data product type *)

Lemma get_count_bump (k k' : string) (c : list (string * nat)) :
  get_count k' (bump k c)
  = (if String.eqb k' k then S (get_count k' c) else get_count k' c).
Proof.
  induction c as [|[k0 n] c IH]; cbn [bump get_count].
  - destruct (String.eqb k' k); reflexivity.
  - destruct (String.eqb k k0) eqn:E0; cbn [get_count].
    + apply String.eqb_eq in E0. subst k0.
      destruct (String.eqb k' k); reflexivity.
    + destruct (String.eqb k' k0) eqn:E1; [|exact IH].
      apply String.eqb_eq in E1. subst k0.
      now rewrite String.eqb_sym, E0.
Qed.

Lemma total_bump (k : string) (c : list (string * nat)) :
  total (bump k c) = S (total c).
Proof.
  induction c as [|[k0 n] c IH]; cbn [bump total]; [reflexivity|].
  destruct (String.eqb k k0); cbn [total]; [reflexivity | rewrite IH; lia].
Qed.

Lemma keys_bump (k k' : string) (c : list (string * nat)) :
  In k' (map fst (bump k c)) <-> k' = k \/ In k' (map fst c).
Proof.
  induction c as [|[k0 n] c IH]; cbn [bump map fst In].
  - intuition.
  - destruct (String.eqb k k0) eqn:E0; cbn [map fst In].
    + apply String.eqb_eq in E0. subst k0. intuition.
    + rewrite IH. intuition.
Qed.

Lemma NoDup_bump (k : string) (c : list (string * nat)) :
  NoDup (map fst c) -> NoDup (map fst (bump k c)).
Proof.
  induction c as [|[k0 n] c IH]; cbn [bump map fst]; intros H.
  - constructor; [intros [] | constructor].
  - inversion H as [|? ? Hn Hc]; subst.
    destruct (String.eqb k k0) eqn:E0; cbn [map fst].
    + now constructor.
    + constructor; [|now apply IH].
      rewrite keys_bump. intros [->|Hin]; [|now apply Hn].
      now rewrite String.eqb_refl in E0.
Qed.

Lemma Counter_from (l : list string) :
  forall c,
    NoDup (map fst c) ->
    let c' := fold_left (fun c k => bump k c) l c in
    (forall k, get_count k c' = (get_count k c + count_occ string_dec l k)%nat)
    /\ total c' = (total c + List.length l)%nat
    /\ NoDup (map fst c')
    /\ (forall k, In k (map fst c') <-> In k (map fst c) \/ In k l).
Proof.
  induction l as [|x l IH]; intros c Hc; cbn [fold_left count_occ List.length In].
  - cbv zeta. repeat split; intros; try tauto; try lia; try exact Hc.
  - destruct (IH (bump x c) (NoDup_bump x c Hc)) as (H1 & H2 & H3 & H4).
    cbv zeta in *. split; [|split; [|split; [exact H3|]]].
    + intros k. rewrite H1, get_count_bump.
      destruct (string_dec x k) as [->|Hne].
      * rewrite String.eqb_refl. lia.
      * assert (E : String.eqb k x = false)
          by (apply String.eqb_neq; congruence).
        rewrite E. lia.
    + rewrite H2, total_bump. lia.
    + intros k. rewrite H4, keys_bump. intuition.
Qed.

(** X12: the Counter of cell 20 gives every data product type the number of
    rows that carry it and zero to any other key; its counts add up to the
    number of rows; each type of the column is one key and no key comes
    twice. *)
Theorem Counter_counts (dp_types : list string) :
  (forall k, get_count k (Counter dp_types) = count_occ string_dec dp_types k)
  /\ total (Counter dp_types) = List.length dp_types
  /\ NoDup (map fst (Counter dp_types))
  /\ (forall k, In k (map fst (Counter dp_types)) <-> In k dp_types).
Proof.
  destruct (Counter_from dp_types [] (NoDup_nil _)) as (H1 & H2 & H3 & H4).
  cbv zeta in *. unfold Counter.
  split; [exact H1|]. split; [exact H2|]. split; [exact H3|].
  intros k. rewrite H4. cbn [map In]. tauto.
Qed.

Example Counter_example :
  Counter ["image"; "spectrum"; "image"; "cube"; "image"]
  = [("image", 3%nat); ("spectrum", 1%nat); ("cube", 1%nat)].
Proof. reflexivity. Qed.

(** *** The count line *)

Lemma Qred_integer (n : Z) : Qred (inject_Z n) = inject_Z n.
Proof.
  unfold Qred, inject_Z.
  pose proof (Z.ggcd_gcd n 1) as Hg.
  pose proof (Z.ggcd_correct_divisors n 1) as Hd.
  destruct (Z.ggcd n 1) as [g [aa bb]]. cbn [fst snd] in *.
  rewrite Z.gcd_1_r in Hg. subst g. destruct Hd as [Ha Hb].
  replace aa with n by lia. replace bb with 1%Z by lia. reflexivity.
Qed.

(** [%d] of a count is read back as the count. *)
Lemma parse_count (n : Z) :
  (0 <= n)%Z -> parse_decimal (decimal n) = Some (inject_Z n).
Proof.
  intros Hn.
  assert (Hsign : read_sign (decimal n) = (false, decimal n)).
  { destruct (decimal_digits n) as [Hd (c & r & E)].
    rewrite E in *. cbn [all_chars] in Hd. apply andb_true_iff in Hd as [Hc _].
    destruct (digit_not_sign c Hc) as (H1 & H2 & _).
    cbn [read_sign]. now rewrite H1, H2. }
  destruct (read_decimal n EmptyString 0 Hn) as [d Hd].
  rewrite append_nil_r in Hd.
  unfold parse_decimal. rewrite Hsign, Hd.
  cbn [read_digits Nat.add read_exponent]. cbv beta iota.
  unfold scale10. change (0 - Z.of_nat 0)%Z with 0%Z.
  change (0 <=? 0)%Z with true. cbv iota.
  replace (n * 10 ^ 0)%Z with n by lia.
  f_equal. apply Qred_integer.
Qed.

Section ClientExtras.

Import Client.

Variables (row error : Type).
Variable show_results : list row -> string.
Variable show_table : list row -> string.
Variable columns36 : row -> Display.value * Display.value * Display.value.
Variable AttributeError : error.

Let program : Type := prog row error (list row).
Let cells (ra dec : float) : list program :=
  operations show_results show_table columns36 AttributeError ra dec.

(** X13: the count line of a result, read back after its label, is the
    number of rows of the result, whatever that number. *)
Theorem num_matching_read_back (res : list row) :
  find_after "Num matching datasets: " (num_matching res)
  = Some (decimal (Z.of_nat (List.length res)))
  /\ parse_decimal (decimal (Z.of_nat (List.length res)))
     = Some (inject_Z (Z.of_nat (List.length res))).
Proof.
  split; [reflexivity|]. apply parse_count. lia.
Qed.


End ClientExtras.


(** *** One WHERE clause at every position *)

Lemma flush_not_W (c : ascii) (w : string) (n : nat) :
  Ascii.eqb c "W" = false -> flush (String c w) n = n.
Proof.
  intros H. unfold flush. cbn [String.eqb]. now rewrite H.
Qed.

(** Reading a converted number changes no count: none of its words starts
    with a W. *)
Lemma lex_number (s k : string) :
  all_chars number_char s = true ->
  forall w n,
    match w with
    | EmptyString => true
    | String c _ => negb (Ascii.eqb c "W")
    end = true ->
    exists w',
      lex (s ++ k) (Lex false w n) = lex k (Lex false w' n)
      /\ match w' with
         | EmptyString => true
         | String c _ => negb (Ascii.eqb c "W")
         end = true.
Proof.
  induction s as [|c s IH]; cbn [all_chars append]; intros H w n Hw.
  - now exists w.
  - apply andb_true_iff in H as [Hc Hs]. cbn [lex].
    assert (Hstep : exists w1,
              lex_step (Lex false w n) c = Lex false w1 n
              /\ match w1 with
                 | EmptyString => true
                 | String c1 _ => negb (Ascii.eqb c1 "W")
                 end = true).
    { destruct w as [|c0 w].
      - destruct c as [[] [] [] [] [] [] [] []]; try discriminate Hc;
          eexists; split; reflexivity.
      - apply negb_true_iff in Hw.
        destruct c as [[] [] [] [] [] [] [] []]; try discriminate Hc;
          cbn [lex_step is_apostrophe Ascii.eqb Bool.eqb apostrophe];
          first [ exists EmptyString; split;
                  [cbv -[flush]; now rewrite (flush_not_W c0 w n Hw) | reflexivity]
                | eexists (String c0 _); split;
                  [cbv -[append]; reflexivity | now rewrite Hw] ]. }
    destruct Hstep as (w1 & -> & Hw1). now apply IH.
Qed.

(** X15: at every position and radius the cone search has exactly one WHERE
    clause. *)
Theorem coneSearch_one_where_clause (ra dec r : float) :
  where_clauses (coneSearch ra dec r) = 1%nat.
Proof.
  assert (Hnum : forall x, all_chars number_char (format_f x) = true).
  { intros x. destruct (format_f_text x) as (c & s & -> & Hc & Hs).
    cbn [all_chars]. now rewrite (number_head_char c Hc), Hs. }
  unfold where_clauses, coneSearch.
  pose proof (Hnum ra) as Ha. pose proof (Hnum dec) as Hb.
  pose proof (Hnum r) as Hc.
  set (A := format_f ra) in *. set (B := format_f dec) in *.
  set (C := format_f r) in *.
  change (lex ("SELECT *" ++ LF ++ "FROM ivoa.ObsCore" ++ LF ++
               "WHERE intersects(s_region, circle('', "
               ++ A ++ ", " ++ B ++ ", " ++ C ++ "))=1" ++ LF)
              (Lex false EmptyString 0))
    with (lex (A ++ ", " ++ B ++ ", " ++ C ++ "))=1" ++ LF)
              (Lex false EmptyString 1)).
  destruct (lex_number A (", " ++ B ++ ", " ++ C ++ "))=1" ++ LF) Ha
              EmptyString 1 eq_refl) as (wa & -> & Hwa).
  assert (Fa : flush wa 1 = 1%nat).
  { destruct wa as [|c w]; [reflexivity|].
    apply flush_not_W. now apply negb_true_iff. }
  change (lex (", " ++ B ++ ", " ++ C ++ "))=1" ++ LF) (Lex false wa 1))
    with (lex (B ++ ", " ++ C ++ "))=1" ++ LF)
              (Lex false EmptyString (flush EmptyString (flush wa 1)))).
  rewrite Fa. change (flush EmptyString 1) with 1%nat.
  destruct (lex_number B (", " ++ C ++ "))=1" ++ LF) Hb
              EmptyString 1 eq_refl) as (wb & -> & Hwb).
  assert (Fb : flush wb 1 = 1%nat).
  { destruct wb as [|c w]; [reflexivity|].
    apply flush_not_W. now apply negb_true_iff. }
  change (lex (", " ++ C ++ "))=1" ++ LF) (Lex false wb 1))
    with (lex (C ++ "))=1" ++ LF)
              (Lex false EmptyString (flush EmptyString (flush wb 1)))).
  rewrite Fb. change (flush EmptyString 1) with 1%nat.
  destruct (lex_number C ("))=1" ++ LF) Hc EmptyString 1 eq_refl)
    as (wc & -> & Hwc).
  assert (Fc : flush wc 1 = 1%nat).
  { destruct wc as [|c w]; [reflexivity|].
    apply flush_not_W. now apply negb_true_iff. }
  change (lex ("))=1" ++ LF) (Lex false wc 1))
    with (Lex false EmptyString
            (flush EmptyString (flush "1" (flush EmptyString
               (flush EmptyString (flush wc 1)))))).
  rewrite Fc. reflexivity.
Qed.

(** *** The listing of cell 36 *)

Section ListingProperties.

Import Client.

Variables (row error : Type).
Variable columns36 : row -> Display.value * Display.value * Display.value.
Variable AttributeError : error.

Lemma shown_length (t : list row) :
  forallb (decodable columns36) t = true ->
  List.length (shown columns36 t) = List.length t.
Proof.
  induction t as [|r t IH]; cbn [forallb shown List.length]; intros H;
    [reflexivity|].
  apply andb_true_iff in H as [Hr Ht]. unfold decodable in Hr.
  destruct (row_line columns36 r); [|discriminate Hr].
  cbn [List.length]. now rewrite (IH Ht).
Qed.


End ListingProperties.

